(** * AuraGem: sync_google_sheet.py

    A shallow embedding of the spreadsheet-to-metadata transform of
    [sync_google_sheet.py] and the properties its specification states.

    Conventions of the embedding.

    - A Python [str] is the sequence of its Unicode code points
      ([list N]).  Source literals are written [u "..."], the code points
      of the UTF-8 literal.
    - Python built-ins and library calls the program makes ([str.strip],
      truthiness, [int], [json.dump], [csv.DictReader], [Path.exists]) are
      modelled after CPython 3.11 (Unicode 14.0); [print] is taken to
      succeed.
    - Exceptions are values: fallible code returns a sum.
    - The file system is explicit: the output files are a finite map from
      a file (as the directory resolves the path the program opens) to the
      text in it, and standard output is the list of the [print] calls made
      so far.  What the program cannot decide itself (how a path resolves,
      which system call fails, what the network and the command line
      parser answer) is an input. *)

From Stdlib Require Import ZArith NArith Lia DecimalString.
From stdpp Require Import base option list gmap strings.

Local Open Scope N_scope.

(** ** Python strings *)

Abbreviation str := (list N).

Module PyStr.

(** Bytes of a literal. *)
Definition bytes_of (s : string) : list N :=
  map Ascii.N_of_ascii (String.list_ascii_of_string s).

(** Strict enough UTF-8 decoding for source literals: a lead byte
    followed by its continuation bytes; a truncated sequence is dropped. *)
Definition cont (b : N) : N := b - 0x80.

Fixpoint utf8_decode (bs : list N) : str :=
  match bs with
  | [] => []
  | b :: r =>
      if b <? 0x80 then b :: utf8_decode r
      else if b <? 0xE0 then
        match r with
        | c1 :: r1 => ((b - 0xC0) * 0x40 + cont c1) :: utf8_decode r1
        | _ => []
        end
      else if b <? 0xF0 then
        match r with
        | c1 :: c2 :: r2 =>
            ((b - 0xE0) * 0x1000 + cont c1 * 0x40 + cont c2) :: utf8_decode r2
        | _ => []
        end
      else
        match r with
        | c1 :: c2 :: c3 :: r3 =>
            ((b - 0xF0) * 0x40000 + cont c1 * 0x1000 + cont c2 * 0x40 + cont c3)
              :: utf8_decode r3
        | _ => []
        end
  end.

Definition u (s : string) : str := utf8_decode (bytes_of s).

(** [Py_UNICODE_ISSPACE]: the characters [str.isspace] accepts. *)
Definition isspace (c : N) : bool :=
  ((0x09 <=? c) && (c <=? 0x0D))
  || ((0x1C <=? c) && (c <=? 0x20))
  || (c =? 0x85) || (c =? 0xA0) || (c =? 0x1680)
  || ((0x2000 <=? c) && (c <=? 0x200A))
  || (c =? 0x2028) || (c =? 0x2029) || (c =? 0x202F)
  || (c =? 0x205F) || (c =? 0x3000).

Fixpoint lstrip (s : str) : str :=
  match s with
  | [] => []
  | c :: r => if isspace c then lstrip r else s
  end.

Definition rstrip (s : str) : str := rev (lstrip (rev s)).

(** [s.strip()]: the left index advances over white space, then the
    right index retreats over white space. *)
Definition strip (s : str) : str := rstrip (lstrip s).

(** Truthiness of a [str]: non-empty. *)
Definition truthy (s : str) : bool :=
  match s with [] => false | _ => true end.

(** [all([...])] over strings. *)
Definition all (l : list str) : bool := forallb truthy l.

End PyStr.

Import PyStr.

(** ** The built-in [int] on a [str] (base 10) *)

Module PyInt.

(** First code point of every run of ten decimal digits (category Nd). *)
Definition decimal_zeros : list N :=
  [ 0x30; 0x660; 0x6F0; 0x7C0; 0x966; 0x9E6; 0xA66; 0xAE6; 0xB66; 0xBE6;
    0xC66; 0xCE6; 0xD66; 0xDE6; 0xE50; 0xED0; 0xF20; 0x1040; 0x1090;
    0x17E0; 0x1810; 0x1946; 0x19D0; 0x1A80; 0x1A90; 0x1B50; 0x1BB0;
    0x1C40; 0x1C50; 0xA620; 0xA8D0; 0xA900; 0xA9D0; 0xA9F0; 0xAA50;
    0xABF0; 0xFF10; 0x104A0; 0x10D30; 0x11066; 0x110F0; 0x11136; 0x111D0;
    0x112F0; 0x11450; 0x114D0; 0x11650; 0x116C0; 0x11730; 0x118E0;
    0x11950; 0x11C50; 0x11D50; 0x11DA0; 0x16A60; 0x16AC0; 0x16B50;
    0x1D7CE; 0x1D7D8; 0x1D7E2; 0x1D7EC; 0x1D7F6; 0x1E140; 0x1E2F0;
    0x1E950; 0x1FBF0 ].

(** [Py_UNICODE_TODECIMAL]. *)
Definition to_decimal (c : N) : option N :=
  match List.find (fun z => (z <=? c) && (c <? z + 10)) decimal_zeros with
  | Some z => Some (c - z)
  | None => None
  end.

(** One character of [_PyUnicode_TransformDecimalAndSpaceToASCII]: ASCII
    stays, other white space becomes a blank, other decimal digits become
    ASCII digits, anything else becomes a question mark. *)
Definition to_ascii_char (c : N) : N :=
  if c <? 127 then c
  else if isspace c then 0x20
  else match to_decimal c with
       | Some d => 0x30 + d
       | None => 0x3F
       end.

(** [Py_ISSPACE], the C locale white space. *)
Definition Py_ISSPACE (c : N) : bool :=
  ((0x09 <=? c) && (c <=? 0x0D)) || (c =? 0x20).

Fixpoint skip_space (p : list N) : list N :=
  match p with
  | c :: r => if Py_ISSPACE c then skip_space r else p
  | [] => []
  end.

Definition digit_value (c : N) : option N :=
  if (0x30 <=? c) && (c <=? 0x39) then Some (c - 0x30) else None.

(** The validation loop of [long_from_string_base]: digits and single
    underscores; [prev] tells whether the previous character was an
    underscore.  The result is the value read, the number of digits and the
    unread rest; [None] is a syntax error. *)
Fixpoint scan (p : list N) (prev : bool) (acc digits : N)
  : option (N * N * list N) :=
  match p with
  | c :: r =>
      if c =? 0x5F then
        if prev then None else scan r true acc digits
      else
        match digit_value c with
        | Some d => scan r false (acc * 10 + d) (digits + 1)
        | None => if prev then None else Some (acc, digits, p)
        end
  | [] => if prev then None else Some (acc, digits, [])
  end.

(** [sys.int_info.default_max_str_digits]. *)
Definition max_str_digits : N := 4300.

Definition long_from_string_base (s : list N) : option N :=
  match s with
  | c :: _ => if c =? 0x5F then None else
      match scan s false 0 0 with
      | None => None
      | Some (v, digits, rest) =>
          if digits =? 0 then None
          else match skip_space rest with
               | [] => if max_str_digits <? digits then None else Some v
               | _ => None
               end
      end
  | [] => None
  end.

(** [PyLong_FromString] with base 10; [None] stands for [ValueError]. *)
Definition PyLong_FromString (s : list N) : option Z :=
  let s1 := skip_space s in
  let '(neg, s2) :=
    match s1 with
    | c :: r => if c =? 0x2B then (false, r)
                else if c =? 0x2D then (true, r)
                else (false, s1)
    | [] => (false, s1)
    end in
  match long_from_string_base s2 with
  | Some v => Some (if neg then (- Z.of_N v)%Z else Z.of_N v)
  | None => None
  end.

(** [int(s)] for a [str] argument. *)
Definition int (s : str) : option Z :=
  PyLong_FromString (map to_ascii_char s).

End PyInt.

(** ** [json.dump(..., indent=4, ensure_ascii=False)] *)

Module Json.

#[local] Set Warnings "-register-all".

Inductive json :=
| JString (s : str)
| JInt (z : Z)
| JArray (l : list json)
| JObject (l : list (str * json)).

Definition hex_digit (d : N) : N :=
  if d <? 10 then 0x30 + d else 0x61 + (d - 10).

(** [ESCAPE_DCT]: backslash, double quote and the control characters. *)
Definition escape (c : N) : str :=
  if c =? 0x5C then u "\\"
  else if c =? 0x22 then [0x5C; 0x22]
  else if c =? 0x08 then u "\b"
  else if c =? 0x0C then u "\f"
  else if c =? 0x0A then u "\n"
  else if c =? 0x0D then u "\r"
  else if c =? 0x09 then u "\t"
  else if c <? 0x20 then u "\u00" ++ [hex_digit (c / 16); hex_digit (c mod 16)]
  else [c].

Definition encode_basestring (s : str) : str :=
  [0x22] ++ concat (map escape s) ++ [0x22].

(** [int.__repr__]. *)
Definition int_repr (z : Z) : str :=
  bytes_of (NilEmpty.string_of_int (Z.to_int z)).

Definition newline_indent (indent level : nat) : str :=
  0x0A :: replicate (indent * level) 0x20.

Fixpoint join (sep : str) (l : list str) : str :=
  match l with
  | [] => []
  | [x] => x
  | x :: r => x ++ sep ++ join sep r
  end.

Fixpoint iterencode (indent level : nat) (o : json) : str :=
  match o with
  | JString s => encode_basestring s
  | JInt z => int_repr z
  | JArray [] => u "[]"
  | JArray l =>
      u "[" ++ newline_indent indent (S level)
        ++ join (u "," ++ newline_indent indent (S level))
                (map (iterencode indent (S level)) l)
        ++ newline_indent indent level ++ u "]"
  | JObject [] => u "{}"
  | JObject l =>
      u "{" ++ newline_indent indent (S level)
        ++ join (u "," ++ newline_indent indent (S level))
                (map (fun '(k, v) =>
                        encode_basestring k ++ u ": "
                          ++ iterencode indent (S level) v) l)
        ++ newline_indent indent level ++ u "}"
  end.

Definition dumps (o : json) (indent : nat) : str := iterencode indent 0 o.

(** [o[k]] on an object. *)
Fixpoint assoc (k : str) (l : list (str * json)) : option json :=
  match l with
  | [] => None
  | (k', v) :: r => if decide (k = k') then Some v else assoc k r
  end.

Definition item (k : str) (o : json) : option json :=
  match o with
  | JObject l => assoc k l
  | _ => None
  end.

End Json.

Import Json.

(** ** The program *)

(** Required CSV columns. *)
Definition REQUIRED_COLUMNS : list str :=
  [ u "ID"; u "名稱"; u "Category"; u "Color"; u "Cut"; u "Carat";
    u "Clarity"; u "Rarity"; u "image"; u "animation_url" ].

(** *** Rows of [csv.DictReader] *)

(** What a row holds under a column name: a string, or [None] (the
    [restval] of a row shorter than the header). *)
Inductive pyval :=
| PNone
| PStr (s : str).

(** [dict(zip(fieldnames, row))], then [None] under every field name the
    row is too short for.  (Surplus fields go under the key [None], which
    is not a string and is never looked up.) *)
Definition dict_of_row (fieldnames fields : list str) : gmap str pyval :=
  let d := foldl (fun d '(k, v) => <[k := PStr v]> d) ∅ (zip fieldnames fields) in
  foldl (fun d k => <[k := PNone]> d) d (drop (length fields) fieldnames).

(** The rows the reader yields for the records of the table: the first
    record is the header, empty records are passed over. *)
Definition DictReader (records : list (list str)) : list (gmap str pyval) :=
  match records with
  | [] => []
  | fieldnames :: rest =>
      map (dict_of_row fieldnames)
          (List.filter (fun r => match r with [] => false | _ => true end) rest)
  end.

(** [row.get(k)] is [row !! k] with [None] for an absent key;
    [row.get(k, default)]: *)
Definition get (row : gmap str pyval) (k : str) (default : pyval) : pyval :=
  match row !! k with
  | Some v => v
  | None => default
  end.

(** *** Exceptions *)

Inductive exn :=
| AttributeError (msg : str)
| KeyError (shown : str)
| OSError (msg : str).

Definition str_of_exn (e : exn) : str :=
  match e with
  | AttributeError msg => msg
  | KeyError shown => shown
  | OSError msg => msg
  end.

Definition try_bind {A B : Type} (m : exn + A) (k : A -> exn + B) : exn + B :=
  match m with
  | inl e => inl e
  | inr a => k a
  end.

Notation "'let*' x := m 'in' k" := (try_bind m (fun x => k))
  (at level 10, x name, m at level 100, k at level 200).

(** [v.strip()] on what [row.get] returned. *)
Definition strip_of (v : pyval) : exn + str :=
  match v with
  | PStr s => inr (strip s)
  | PNone => inl (AttributeError (u "'NoneType' object has no attribute 'strip'"))
  end.

(** *** [generate_description] *)

Definition generate_description (cut color : str) : str :=
  let cut_display :=
    if decide (cut = u "Brilliant") then u "RoundBrilliant" else cut in
  u "A unique " ++ cut_display ++ u " cut gemstone in " ++ color ++ u " color.".

(** *** The body of the row loop, up to the document *)

(** The ten local variables of lines 179 to 188. *)
Record fields := {
  gem_id : str;
  name : str;
  category : str;
  color_code : str;
  cut : str;
  carat : str;
  clarity : str;
  rarity : str;
  image : str;
  animation_url : str
}.

(** Lines 179 to 188: [row.get(column, '').strip()], column by column. *)
Definition extract (row : gmap str pyval) : exn + fields :=
  let* gem_id := strip_of (get row (u "ID") (PStr [])) in
  let* name := strip_of (get row (u "名稱") (PStr [])) in
  let* category := strip_of (get row (u "Category") (PStr [])) in
  let* color_code := strip_of (get row (u "Color") (PStr [])) in
  let* cut := strip_of (get row (u "Cut") (PStr [])) in
  let* carat := strip_of (get row (u "Carat") (PStr [])) in
  let* clarity := strip_of (get row (u "Clarity") (PStr [])) in
  let* rarity := strip_of (get row (u "Rarity") (PStr [])) in
  let* image := strip_of (get row (u "image") (PStr [])) in
  let* animation_url := strip_of (get row (u "animation_url") (PStr [])) in
  inr {| gem_id := gem_id; name := name; category := category;
         color_code := color_code; cut := cut; carat := carat;
         clarity := clarity; rarity := rarity; image := image;
         animation_url := animation_url |}.

(** Line 191: Category as the color name, the Color column otherwise. *)
Definition color_name (f : fields) : str :=
  if truthy (category f) then category f else color_code f.

(** Line 194. *)
Definition validated (f : fields) : bool :=
  all [name f; color_name f; cut f; carat f; clarity f; rarity f; image f;
       animation_url f].

Inductive body_result :=
| MissingFields (row_id : str)
| InvalidCarat (row_id raw : str)
| Built (row_id : str) (json_data : json).

Definition trait (trait_type : str) (value : json) : json :=
  JObject [(u "trait_type", JString trait_type); (u "value", value)].

(** Lines 191 to 238. *)
Definition assemble (f : fields) : body_result :=
  if negb (validated f) then MissingFields (gem_id f)
  else
    match PyInt.int (carat f) with
    | None => InvalidCarat (gem_id f) (carat f)
    | Some carat_value =>
        let description := generate_description (cut f) (color_name f) in
        Built (gem_id f)
          (JObject
             [ (u "name", JString (name f));
               (u "description", JString description);
               (u "attributes",
                 JArray [ trait (u "Cut") (JString (cut f));
                          trait (u "Color") (JString (color_name f));
                          trait (u "Carat") (JInt carat_value);
                          trait (u "Clarity") (JString (clarity f));
                          trait (u "Rarity") (JString (rarity f)) ]);
               (u "image", JString (image f));
               (u "animation_url", JString (animation_url f)) ])
    end.

Definition build (row : gmap str pyval) : exn + body_result :=
  let* f := extract row in inr (assemble f).

(** *** State and environment *)

(** [files]: the text of each output file, keyed by the file itself;
    [stdout]: the lines printed; the two counters of [csv_to_json]. *)
Record state := {
  files : gmap str str;
  stdout : list str;
  processed_count : nat;
  skipped_count : nat
}.

(** How writing [output_dir / name] can fail: [open(output_file, 'w')]
    raises and the file is as it was, or the file is opened, hence emptied,
    and [json.dump] or the flush on leaving the [with] block raises after
    the first [written] characters of the text reached the file. *)
Inductive write_failure :=
| OpenFails (msg : str)
| DumpFails (msg : str) (written : nat).

(** An output directory as the program meets it: the file that
    [output_dir / name] denotes (two names may denote one file), and the
    failure, if any, of writing under that name. *)
Record directory := {
  file_of : str -> str;
  write_error : str -> option write_failure
}.

(** What the program cannot decide itself: the text of a path object, the
    exception (its text) that creating the output directory raises, if any,
    and what the output directory is. *)
Record env := {
  Path : str -> str;
  mkdir_error : option str;
  at_dir : str -> directory
}.

Definition print (line : str) (st : state) : state :=
  {| files := files st; stdout := stdout st ++ [line];
     processed_count := processed_count st;
     skipped_count := skipped_count st |}.

Definition skip (st : state) : state :=
  {| files := files st; stdout := stdout st;
     processed_count := processed_count st;
     skipped_count := S (skipped_count st) |}.

Definition nat_repr (n : nat) : str := int_repr (Z.of_nat n).

(** [open(output_file, 'w')] left the file holding [text]. *)
Definition leave (W : directory) (file_name text : str) (st : state) : state :=
  {| files := <[file_of W file_name := text]> (files st);
     stdout := stdout st;
     processed_count := processed_count st;
     skipped_count := skipped_count st |}.

(** [open(output_file, 'w')] and [json.dump], then the count. *)
Definition write_json (W : directory) (row_id : str) (json_data : json)
    (st : state) : state :=
  let st1 :=
    {| files := <[file_of W (row_id ++ u ".json") := dumps json_data 4]> (files st);
       stdout := stdout st;
       processed_count := S (processed_count st);
       skipped_count := skipped_count st |} in
  if (processed_count st1 mod 50 =? 0)%nat
  then print (u "  Processed " ++ nat_repr (processed_count st1) ++ u " files...") st1
  else st1.

(** The test of line 174: [not row.get('ID') or not row.get('ID').strip()]. *)
Definition blank_id (row : gmap str pyval) : bool :=
  match row !! u "ID" with
  | None | Some PNone => true
  | Some (PStr s) => negb (truthy s) || negb (truthy (strip s))
  end.

(** [f"{row.get('ID', 'unknown')}"]. *)
Definition shown_id (row : gmap str pyval) : str :=
  match get row (u "ID") (PStr (u "unknown")) with
  | PStr s => s
  | PNone => u "None"
  end.

(** The two handlers of the inner [try]. *)
Definition handle (row : gmap str pyval) (e : exn) (st : state) : state :=
  match e with
  | KeyError shown =>
      skip (print (u "⚠ Skipping row: Missing column '" ++ shown ++ u "'") st)
  | _ =>
      skip (print (u "⚠ Error processing row " ++ shown_id row ++ u ": "
                     ++ str_of_exn e) st)
  end.

(** One iteration of [for row in reader]. *)
Definition process_row (W : directory) (st : state) (row : gmap str pyval)
  : state :=
  if blank_id row then st
  else
    match build row with
    | inl e => handle row e st
    | inr (MissingFields row_id) =>
        skip (print (u "⚠ Skipping row " ++ row_id
                       ++ u ": Missing required fields") st)
    | inr (InvalidCarat row_id raw) =>
        skip (print (u "⚠ Skipping row " ++ row_id
                       ++ u ": Invalid carat value '" ++ raw ++ u "'") st)
    | inr (Built row_id json_data) =>
        match write_error W (row_id ++ u ".json") with
        | Some (OpenFails msg) => handle row (OSError msg) st
        | Some (DumpFails msg written) =>
            handle row (OSError msg)
              (leave W (row_id ++ u ".json")
                 (take written (dumps json_data 4)) st)
        | None => write_json W row_id json_data st
        end
    end.

(** *** [csv_to_json] *)

(** The byte store as the program meets it: absent ([exists()] is false),
    out of reach ([exists()] itself raises, as pathlib does for an error
    other than a missing file), impossible to open, or a table whose
    records the reader yields one by one until the end of the file or until
    reading raises (undecodable bytes, a reader error). *)
Inductive byte_store :=
| Absent
| Inaccessible (msg : str)
| Unopenable (msg : str)
| Table (records : list (list str)) (failure : option str).

Inductive outcome :=
| Returned (b : bool)
| Raised (msg : str).

Definition start_counting (st : state) : state :=
  {| files := files st; stdout := stdout st;
     processed_count := 0; skipped_count := 0 |}.

(** The lines after the loop. *)
Definition summary (output_dir : str) (st : state) : state :=
  let st1 :=
    print ([0x0A] ++ u "✓ Successfully generated "
             ++ nat_repr (processed_count st) ++ u " JSON files") st in
  let st2 :=
    if (0 <? skipped_count st1)%nat
    then print (u "⚠ Skipped " ++ nat_repr (skipped_count st1) ++ u " rows") st1
    else st1 in
  print (u "  Output directory: " ++ output_dir) st2.

Definition csv_to_json (E : env) (csv_file output_dir : str)
    (store : byte_store) (st : state) : outcome * state :=
  let csv_file := Path E csv_file in
  let output_dir := Path E output_dir in
  match mkdir_error E with
  | Some msg => (Raised msg, st)
  | None =>
      match store with
      | Absent =>
          (Returned false, print (u "✗ CSV file not found: " ++ csv_file) st)
      | Inaccessible msg => (Raised msg, st)
      | _ =>
          let st :=
            print (u "   Using only required columns: "
                     ++ join (u ", ") REQUIRED_COLUMNS)
              (print (u "   Output: " ++ output_dir)
                 (print (u "   Input: " ++ csv_file)
                    (print (u "📝 Converting CSV to JSON files...") st))) in
          match store with
          | Table records failure =>
              let st := foldl (process_row (at_dir E output_dir))
                              (start_counting st) (DictReader records) in
              match failure with
              | Some msg =>
                  (Returned false, print (u "✗ Error reading CSV file: " ++ msg) st)
              | None => (Returned true, summary output_dir st)
              end
          | Unopenable msg =>
              (Returned false, print (u "✗ Error reading CSV file: " ++ msg) st)
          | _ => (Returned false, st)
          end
      end
  end.

(** *** [download_csv] *)

(** What the request and the saving of its answer come to: the three
    kinds of exception before anything is reported, the file saved and
    reported but the counting of its lines raising, or all done. *)
Inductive fetched :=
| HTTPError (code : N) (reason : str)
| URLError (reason : str)
| OtherError (msg : str)
| Uncounted (file_size : N) (msg : str)
| Saved (store : byte_store) (file_size line_count : N).

(** The [:,] format of a number. *)
Fixpoint commas_rev (l : str) (k : nat) : str :=
  match l with
  | [] => []
  | c :: r =>
      match k with
      | 3%nat => 0x2C :: c :: commas_rev r 1
      | _ => c :: commas_rev r (S k)
      end
  end.

Definition with_commas (n : N) : str :=
  rev (commas_rev (rev (int_repr (Z.of_N n))) 0).

Definition export_url (spreadsheet_id gid : str) : str :=
  u "https://docs.google.com/spreadsheets/d/" ++ spreadsheet_id
    ++ u "/export?" ++ u "format=csv&gid=" ++ gid.

(** The byte store is returned when the download succeeded. *)
Definition download_csv (urlopen : str -> fetched) (E : env)
    (spreadsheet_id gid output_file : str) (st : state)
  : bool * option byte_store * state :=
  let url := export_url spreadsheet_id gid in
  let st :=
    print (u "   URL: " ++ url)
      (print (u "📥 Downloading CSV from Google Sheets...") st) in
  match urlopen url with
  | Saved store file_size line_count =>
      (true, Some store,
        print (u "  Total lines: " ++ int_repr (Z.of_N line_count) ++ [0x0A])
          (print (u "  File size: " ++ with_commas file_size ++ u " bytes")
             (print (u "  Saved to: " ++ Path E output_file)
                (print (u "✓ Successfully downloaded CSV file") st))))
  | HTTPError code reason =>
      let st :=
        print (u "✗ HTTP Error: " ++ int_repr (Z.of_N code) ++ u " - " ++ reason) st in
      (false, None,
        if code =? 403 then
          print (u "  Please make sure the Google Sheet is shared with 'Anyone with the link' can view.")
            (print (u "  This might be because the sheet is not publicly accessible.") st)
        else st)
  | URLError reason =>
      (false, None,
        print (u "  Please check your internet connection.")
          (print (u "✗ URL Error: " ++ reason) st))
  | OtherError msg =>
      (false, None, print (u "✗ Error: " ++ msg) st)
  | Uncounted file_size msg =>
      (false, None,
        print (u "✗ Error: " ++ msg)
          (print (u "  File size: " ++ with_commas file_size ++ u " bytes")
             (print (u "  Saved to: " ++ Path E output_file)
                (print (u "✓ Successfully downloaded CSV file") st))))
  end.

(** *** [sync_google_sheet] and [main] *)

Definition banner (st : state) : state :=
  print []
    (print (replicate 60 0x3D)
       (print (u "🔄 Syncing Google Sheets Data")
          (print (replicate 60 0x3D) st))).

Definition convert (E : env) (csv_file json_output_dir : str)
    (store : byte_store) (st : state) : outcome * state :=
  match csv_to_json E csv_file json_output_dir store st with
  | (Returned true, st) =>
      (Returned true,
        print (replicate 60 0x3D)
          (print (u "✅ Sync completed successfully!")
             (print (replicate 60 0x3D) (print [] st))))
  | (Returned false, st) =>
      (Returned false, print ([0x0A] ++ u "✗ Failed to generate JSON files.") st)
  | (Raised msg, st) => (Raised msg, st)
  end.

Definition sync_google_sheet (urlopen : str -> fetched) (E : env)
    (spreadsheet_id gid csv_file json_output_dir : str) (skip_download : bool)
    (store : byte_store) (st : state) : outcome * state :=
  let st := banner st in
  if negb skip_download then
    match download_csv urlopen E spreadsheet_id gid csv_file st with
    | (true, Some store, st) => convert E csv_file json_output_dir store st
    | (_, _, st) =>
        (Returned false,
          print ([0x0A] ++ u "✗ Failed to download CSV. Aborting.") st)
    end
  else
    match store with
    | Absent =>
        (Returned false,
          print (u "  Cannot skip download when CSV file doesn't exist.")
            (print (u "✗ CSV file not found: " ++ csv_file) st))
    | Inaccessible msg => (Raised msg, st)
    | _ =>
        convert E csv_file json_output_dir store
          (print (u "⏭ Skipping download, using existing CSV: " ++ csv_file
                    ++ [0x0A]) st)
    end.

(** The parsed command line. *)
Record args := {
  spreadsheet_id : str;
  gid : str;
  csv : str;
  output : str;
  skip_download : bool
}.

(** What [parser.parse_args()] comes to: the parser ends the program
    itself (status 2 after a usage error, 0 after printing the help), or
    hands over the settings. *)
Inductive parsed :=
| ParserExit (status : N) (printed : list str)
| Namespace (a : args).

(** [sys.exit(0 if success else 1)]; an exception nobody caught ends the
    interpreter with status 1 as well. *)
Definition main (urlopen : str -> fetched) (E : env) (p : parsed)
    (store : byte_store) (st : state) : N * state :=
  match p with
  | ParserExit status printed =>
      (status, foldl (fun st line => print line st) st printed)
  | Namespace a =>
      match sync_google_sheet urlopen E (spreadsheet_id a) (gid a) (csv a)
              (output a) (skip_download a) store st with
      | (Returned true, st) => (0, st)
      | (Returned false, st) => (1, st)
      | (Raised _, st) => (1, st)
      end
  end.

(** ** Observations used in the statements *)

(** The trimmed text of a column ([''] when the row has no such key);
    [None] when the row holds [None] there. *)
Definition column (row : gmap str pyval) (k : str) : option str :=
  match get row k (PStr []) with
  | PStr s => Some (strip s)
  | PNone => None
  end.

(** A column is missing from a row: no such key (the header lacks the
    column), or [None] under it (the row is too short). *)
Definition missing (row : gmap str pyval) (k : str) : Prop :=
  row !! k = None ∨ row !! k = Some PNone.

(** The document a row is turned into, if any. *)
Definition document_of (row : gmap str pyval) : option json :=
  match build row with
  | inr (Built _ json_data) => Some json_data
  | _ => None
  end.

Definition has_trait_type (t : str) (e : json) : bool :=
  match item (u "trait_type") e with
  | Some (JString s) => bool_decide (s = t)
  | _ => false
  end.

(** The value of the trait named [t] among a document's attributes. *)
Definition trait_value (t : str) (doc : json) : option json :=
  match item (u "attributes") doc with
  | Some (JArray l) =>
      match List.find (has_trait_type t) l with
      | Some e => item (u "value") e
      | None => None
      end
  | _ => None
  end.

(** The document assembled from validated fields and the carat read. *)
Definition document (f : fields) (carat_value : Z) : json :=
  JObject
    [ (u "name", JString (name f));
      (u "description", JString (generate_description (cut f) (color_name f)));
      (u "attributes",
        JArray [ trait (u "Cut") (JString (cut f));
                 trait (u "Color") (JString (color_name f));
                 trait (u "Carat") (JInt carat_value);
                 trait (u "Clarity") (JString (clarity f));
                 trait (u "Rarity") (JString (rarity f)) ]);
      (u "image", JString (image f));
      (u "animation_url", JString (animation_url f)) ].

(** The shape of a document: five traits in order, Carat an integer, no
    string field blank. *)
Definition Document (doc : json) : Prop :=
  ∃ (name description cut color clarity rarity image animation_url : str)
    (carat : Z),
    doc = JObject
            [ (u "name", JString name);
              (u "description", JString description);
              (u "attributes",
                JArray [ trait (u "Cut") (JString cut);
                         trait (u "Color") (JString color);
                         trait (u "Carat") (JInt carat);
                         trait (u "Clarity") (JString clarity);
                         trait (u "Rarity") (JString rarity) ]);
              (u "image", JString image);
              (u "animation_url", JString animation_url) ]
    ∧ strip name ≠ [] ∧ strip description ≠ [] ∧ strip cut ≠ []
    ∧ strip color ≠ [] ∧ strip clarity ≠ [] ∧ strip rarity ≠ []
    ∧ strip image ≠ [] ∧ strip animation_url ≠ [].

(** [needle in hay]. *)
Fixpoint startswith (hay needle : str) : bool :=
  match needle, hay with
  | [], _ => true
  | n :: needle', h :: hay' => (n =? h) && startswith hay' needle'
  | _ :: _, [] => false
  end.

Fixpoint contains (needle hay : str) : bool :=
  startswith hay needle
  || match hay with
     | [] => false
     | _ :: hay' => contains needle hay'
     end.

(** The file a row makes the loop write in full, if any, and its text. *)
Definition row_write (W : directory) (row : gmap str pyval)
  : option (str * str) :=
  if blank_id row then None
  else
    match build row with
    | inr (Built row_id json_data) =>
        match write_error W (row_id ++ u ".json") with
        | None => Some (file_of W (row_id ++ u ".json"), dumps json_data 4)
        | Some _ => None
        end
    | _ => None
    end.

(** The file a row makes the loop touch, if any, and the text it is left
    with: the whole text when the write succeeds, the part that reached the
    file when the write fails after the file was opened. *)
Definition row_leaves (W : directory) (row : gmap str pyval)
  : option (str * str) :=
  if blank_id row then None
  else
    match build row with
    | inr (Built row_id json_data) =>
        match write_error W (row_id ++ u ".json") with
        | None => Some (file_of W (row_id ++ u ".json"), dumps json_data 4)
        | Some (DumpFails _ written) =>
            Some (file_of W (row_id ++ u ".json"),
                  take written (dumps json_data 4))
        | Some (OpenFails _) => None
        end
    | _ => None
    end.

Definition apply_write (m : gmap str str) (w : option (str * str)) : gmap str str :=
  match w with
  | Some (k, v) => <[k := v]> m
  | None => m
  end.

(** The last text written under [k] by a sequence of writes. *)
Fixpoint last_write (k : str) (ws : list (option (str * str))) : option str :=
  match ws with
  | [] => None
  | w :: ws' =>
      match last_write k ws' with
      | Some v => Some v
      | None =>
          match w with
          | Some (k', v) => if decide (k = k') then Some v else None
          | None => None
          end
      end
  end.


(** *** Sample data *)

Definition sample_fields (id category color cut carat : str) : list str :=
  [ id; u "Crimson Star"; category; color; cut; carat; u "VS1"; u "Rare";
    u "ipfs://image/1"; u "ipfs://animation/1" ].

Definition sample_row (category color cut carat : str) : gmap str pyval :=
  dict_of_row REQUIRED_COLUMNS (sample_fields (u "1") category color cut carat).

(** A directory where every name is its own file and every write
    succeeds. *)
Definition plain_dir : directory :=
  {| file_of := fun file_name => file_name; write_error := fun _ => None |}.

Definition plain_env : env :=
  {| Path := fun p => p; mkdir_error := None; at_dir := fun _ => plain_dir |}.

Definition fresh : state :=
  {| files := ∅; stdout := []; processed_count := 0; skipped_count := 0 |}.

Definition sample : fields :=
  {| gem_id := u "1"; name := u "Crimson Star"; category := u "Ruby";
     color_code := u "#FF0000"; cut := u "Brilliant"; carat := u "3";
     clarity := u "VS1"; rarity := u "Rare"; image := u "ipfs://image/1";
     animation_url := u "ipfs://animation/1" |}.

Definition sample_document : json := document sample 3.

(** The header without one column. *)
Definition header_without (k : str) : list str :=
  List.filter (fun c => negb (bool_decide (c = k))) REQUIRED_COLUMNS.

(** The lines [csv_to_json] ends with. *)
Definition summary_lines (output_dir : str) (processed skipped : nat) : list str :=
  [ [0x0A] ++ u "✓ Successfully generated " ++ nat_repr processed
      ++ u " JSON files" ]
  ++ (if (0 <? skipped)%nat
      then [ u "⚠ Skipped " ++ nat_repr skipped ++ u " rows" ]
      else [])
  ++ [ u "  Output directory: " ++ output_dir ].

(** The rows that pass the identifier check. *)
Definition identified (rows : list (gmap str pyval)) : list (gmap str pyval) :=
  List.filter (fun row => negb (blank_id row)) rows.

(** An environment whose output directory cannot be created. *)
Definition no_directory : env :=
  {| Path := fun p => p; mkdir_error := Some (u "[Errno 13] Permission denied: 'json'");
     at_dir := fun _ => plain_dir |}.

Definition sample_table : byte_store :=
  Table [ REQUIRED_COLUMNS;
          sample_fields (u "1") (u "Ruby") (u "#FF0000") (u "Brilliant") (u "3") ]
        None.

(** A fetch that is refused. *)
Definition forbidden (url : str) : fetched := HTTPError 403 (u "Forbidden").

Definition default_args (skip : bool) : args :=
  {| spreadsheet_id := u "1BsTCewXvYLHTEatDZbPTgQOyu0fQf9BowmycI8dI25k";
     gid := u "1432562920";
     csv := u "metadata/raw_data/gem.csv";
     output := u "metadata/json";
     skip_download := skip |}.


(** Where the orchestrator stops without converting anything. *)
Definition aborted (urlopen : str -> fetched) (E : env) (a : args)
    (st : state) : state :=
  if skip_download a then
    print (u "  Cannot skip download when CSV file doesn't exist.")
      (print (u "✗ CSV file not found: " ++ csv a) (banner st))
  else
    print ([0x0A] ++ u "✗ Failed to download CSV. Aborting.")
      (download_csv urlopen E (spreadsheet_id a) (gid a) (csv a) (banner st)).2.



(** The byte store a run converts: the existing one when the download is
    bypassed, the one just saved otherwise; none when the download fails. *)
Definition used_store (urlopen : str -> fetched) (a : args)
    (store : byte_store) : option byte_store :=
  if skip_download a then Some store
  else
    match urlopen (export_url (spreadsheet_id a) (gid a)) with
    | Saved fetched_store _ _ => Some fetched_store
    | _ => None
    end.

(** The number a text of ASCII digits spells in base ten. *)
Definition decimal_value (digits : str) : N :=
  fold_left (fun acc c => acc * 10 + (c - 0x30)) digits 0.

Definition ascii_digit (c : N) : bool := (0x30 <=? c) && (c <=? 0x39).

(** A character [json.dump] writes as it is. *)
Definition verbatim (c : N) : bool :=
  negb (c <? 0x20) && negb (c =? 0x22) && negb (c =? 0x5C).

(** A table with the same identifier twice. *)
Definition twice_table : byte_store :=
  Table [ REQUIRED_COLUMNS;
          sample_fields (u "1") (u "Ruby") (u "#FF0000") (u "Brilliant") (u "3");
          sample_fields (u " 1 ") (u "Emerald") (u "#00FF00") (u "Princess") (u "5") ]
        None.

(** A directory that drops the leading "./" of a name, as path objects
    do, and is plain otherwise. *)
Fixpoint drop_dots (fuel : nat) (file_name : str) : str :=
  match fuel, file_name with
  | S fuel', 0x2E :: 0x2F :: rest => drop_dots fuel' rest
  | _, _ => file_name
  end.

Definition dotted_dir : directory :=
  {| file_of := fun file_name => drop_dots (length file_name) file_name;
     write_error := fun _ => None |}.

Definition dotted_env : env :=
  {| Path := fun p => p; mkdir_error := None; at_dir := fun _ => dotted_dir |}.

(** The identifiers "./1" and "1": two names, one file. *)
Definition aliased_table : byte_store :=
  Table [ REQUIRED_COLUMNS;
          sample_fields (u "./1") (u "Ruby") (u "#FF0000") (u "Brilliant") (u "3");
          sample_fields (u "1") (u "Emerald") (u "#00FF00") (u "Princess") (u "5") ]
        None.

Definition second_sample : fields :=
  {| gem_id := u "1"; name := u "Crimson Star"; category := u "Emerald";
     color_code := u "#00FF00"; cut := u "Princess"; carat := u "5";
     clarity := u "VS1"; rarity := u "Rare"; image := u "ipfs://image/1";
     animation_url := u "ipfs://animation/1" |}.


(** The settings of a run started without arguments, but for the flag. *)
Definition default_run (skip : bool) : parsed := Namespace (default_args skip).

(** ** Proof automation *)

(** Case analysis on the next column looked up. *)
Ltac next_column :=
  match goal with
  | |- context [strip_of (get ?r ?k ?d)] =>
      let H := fresh "Hcol" in
      destruct (strip_of (get r k d)) eqn:H; cbn [try_bind]
  end.

(** * Properties *)

(** ** The built-ins on sample inputs *)

Example u_name_column : u "名稱" = [0x540D; 0x7A31].
Proof. reflexivity. Qed.

Example u_warning : u "⚠ S" = [0x26A0; 0x20; 0x53].
Proof. reflexivity. Qed.

Example u_emoji : u "📝" = [0x1F4DD].
Proof. reflexivity. Qed.

Example strip_example : strip (u "  Ruby 　") = u "Ruby".
Proof. reflexivity. Qed.

Example int_3 : PyInt.int (u "3") = Some 3%Z.
Proof. reflexivity. Qed.

Example int_fullwidth : PyInt.int (u "３") = Some 3%Z.
Proof. reflexivity. Qed.

Example int_rejects :
  map PyInt.int [u "3.5"; u "three"; []; u "+"; u "_3"; u "3_"; u "1__0";
                 u "+ 3"; u "0x10"; [0x1C; 0x33]; [0x33; 0x00]]
  = replicate 11 None.
Proof. reflexivity. Qed.

Example int_accepts :
  map PyInt.int [u "007"; u " 3"; u "1_000"; u "-12"]
  = [Some 7%Z; Some 3%Z; Some 1000%Z; Some (-12)%Z].
Proof. reflexivity. Qed.

Example dumps_example :
  let q := [0x22] in
  let nl := [0x0A] in
  dumps (JObject [(u "a", JString (u "x" ++ q ++ u "y" ++ [0x0A; 0x01; 0x540D]));
                  (u "b", JArray [JInt (-12); JObject []])]) 4
  = u "{" ++ nl
      ++ u "    " ++ q ++ u "a" ++ q ++ u ": " ++ q ++ u "x\" ++ q
      ++ u "y\n\u0001名" ++ q ++ u "," ++ nl
      ++ u "    " ++ q ++ u "b" ++ q ++ u ": [" ++ nl
      ++ u "        -12," ++ nl
      ++ u "        {}" ++ nl
      ++ u "    ]" ++ nl ++ u "}".
Proof. reflexivity. Qed.

(** ** Lemmas on [strip] *)

Lemma lstrip_idem s : lstrip (lstrip s) = lstrip s.
Proof.
  induction s as [|c r IH]; simpl; [done|].
  destruct (isspace c) eqn:Hc; [done|]. simpl. by rewrite Hc.
Qed.

Lemma lstrip_snoc l c : isspace c = false → lstrip (l ++ [c]) = lstrip l ++ [c].
Proof.
  intros Hc. induction l as [|d l IH]; simpl.
  - by rewrite Hc.
  - destruct (isspace d); [exact IH | done].
Qed.

Lemma rstrip_cons c r : isspace c = false → rstrip (c :: r) = c :: rstrip r.
Proof.
  intros Hc. unfold rstrip. simpl rev.
  rewrite lstrip_snoc by done. by rewrite rev_app_distr.
Qed.

Lemma rstrip_idem s : rstrip (rstrip s) = rstrip s.
Proof. unfold rstrip. by rewrite rev_involutive, lstrip_idem. Qed.

Lemma lstrip_shape s :
  lstrip s = [] ∨ ∃ c r, lstrip s = c :: r ∧ isspace c = false.
Proof.
  induction s as [|c r IH]; simpl; [by left|].
  destruct (isspace c) eqn:Hc; [exact IH|]. right. eauto.
Qed.

Lemma strip_shape s :
  strip s = [] ∨ ∃ c r, strip s = c :: rstrip r ∧ isspace c = false.
Proof.
  unfold strip. destruct (lstrip_shape s) as [->|(c & r & -> & Hc)].
  - by left.
  - right. exists c, r. by rewrite rstrip_cons.
Qed.

Lemma strip_idem s : strip (strip s) = strip s.
Proof.
  destruct (strip_shape s) as [->|(c & r & -> & Hc)]; [done|].
  unfold strip at 1. simpl. rewrite Hc.
  rewrite rstrip_cons by done. by rewrite rstrip_idem.
Qed.

Lemma strip_bounded c m d :
  isspace c = false → isspace d = false →
  strip (c :: m ++ [d]) = c :: m ++ [d].
Proof.
  intros Hc Hd. unfold strip. simpl. rewrite Hc.
  rewrite rstrip_cons by done. f_equal.
  unfold rstrip. rewrite rev_app_distr. simpl. rewrite Hd.
  simpl. by rewrite rev_involutive.
Qed.

Lemma truthy_true s : truthy s = true ↔ s ≠ [].
Proof. destruct s; simpl; split; congruence. Qed.

Lemma truthy_strip_nonblank s : truthy (strip s) = true → strip (strip s) ≠ [].
Proof. rewrite strip_idem. apply truthy_true. Qed.

(** ** Lemmas on the row body *)

Lemma get_absent row k d : row !! k = None → get row k d = d.
Proof. unfold get. by intros ->. Qed.

Lemma get_present row k d v : row !! k = Some v → get row k d = v.
Proof. unfold get. by intros ->. Qed.

Lemma column_missing row k s : missing row k → column row k = Some s → s = [].
Proof.
  unfold column. intros [H|H].
  - rewrite (get_absent _ _ _ H). by intros [= <-].
  - by rewrite (get_present _ _ _ _ H).
Qed.

Lemma column_strip_of row k x :
  column row k = Some x ↔ strip_of (get row k (PStr [])) = inr x.
Proof.
  unfold column, strip_of. destruct (get row k (PStr [])); split; congruence.
Qed.

(** The only exception extraction raises. *)
Lemma extract_inl row e :
  extract row = inl e →
  e = AttributeError (u "'NoneType' object has no attribute 'strip'").
Proof.
  assert (Hone : ∀ v e', strip_of v = inl e' → inl e' = inl (B := fields) e →
    e = AttributeError (u "'NoneType' object has no attribute 'strip'")).
  { intros [|?] e'; cbn [strip_of]; congruence. }
  unfold extract.
  repeat (next_column; [intros Heq; eapply Hone; eassumption|]).
  intros [=].
Qed.

(** Extraction succeeds exactly when no looked-up column holds [None], and
    yields the trimmed columns. *)
Lemma extract_inr row f :
  extract row = inr f ↔
    column row (u "ID") = Some (gem_id f)
    ∧ column row (u "名稱") = Some (name f)
    ∧ column row (u "Category") = Some (category f)
    ∧ column row (u "Color") = Some (color_code f)
    ∧ column row (u "Cut") = Some (cut f)
    ∧ column row (u "Carat") = Some (carat f)
    ∧ column row (u "Clarity") = Some (clarity f)
    ∧ column row (u "Rarity") = Some (rarity f)
    ∧ column row (u "image") = Some (image f)
    ∧ column row (u "animation_url") = Some (animation_url f).
Proof.
  rewrite !column_strip_of. unfold extract. split.
  - repeat (next_column; [discriminate|]). intros [= <-].
    cbn [gem_id name category color_code cut carat clarity rarity image
           animation_url].
    repeat split; reflexivity.
  - intros (H1 & H2 & H3 & H4 & H5 & H6 & H7 & H8 & H9 & H10).
    rewrite H1, H2, H3, H4, H5, H6, H7, H8, H9, H10. cbn [try_bind].
    by destruct f.
Qed.

Lemma build_extract row :
  build row = match extract row with
              | inl e => inl e
              | inr f => inr (assemble f)
              end.
Proof. reflexivity. Qed.

Lemma validated_true f :
  validated f = true ↔
    name f ≠ [] ∧ color_name f ≠ [] ∧ cut f ≠ [] ∧ carat f ≠ []
    ∧ clarity f ≠ [] ∧ rarity f ≠ [] ∧ image f ≠ [] ∧ animation_url f ≠ [].
Proof.
  unfold validated, all. cbn [forallb].
  rewrite !andb_true_iff, !truthy_true. tauto.
Qed.

Lemma assemble_Built f row_id doc :
  assemble f = Built row_id doc ↔
    validated f = true
    ∧ ∃ n, PyInt.int (carat f) = Some n ∧ row_id = gem_id f ∧ doc = document f n.
Proof.
  unfold assemble, document.
  destruct (validated f); cbn [negb]; [|split; [discriminate|by intros [? _]]].
  destruct (PyInt.int (carat f)) as [n|].
  - split.
    + intros [= <- <-]. eauto.
    + intros (_ & n' & [= <-] & -> & ->). reflexivity.
  - split; [discriminate|]. by intros (_ & n & ? & _).
Qed.

Lemma build_Built row row_id doc :
  build row = inr (Built row_id doc) ↔
    ∃ f n, extract row = inr f ∧ validated f = true
           ∧ PyInt.int (carat f) = Some n
           ∧ row_id = gem_id f ∧ doc = document f n.
Proof.
  rewrite build_extract. destruct (extract row) as [e|f] eqn:He.
  - split; [discriminate|]. by intros (f & n & ? & _).
  - split.
    + intros [= H]. apply assemble_Built in H as (Hv & n & Hn & -> & ->).
      exists f, n. eauto.
    + intros (f' & n & [= <-] & Hv & Hn & -> & ->).
      f_equal. apply assemble_Built. eauto.
Qed.

Lemma trait_values f n :
  trait_value (u "Cut") (document f n) = Some (JString (cut f))
  ∧ trait_value (u "Color") (document f n) = Some (JString (color_name f))
  ∧ trait_value (u "Carat") (document f n) = Some (JInt n)
  ∧ trait_value (u "Clarity") (document f n) = Some (JString (clarity f))
  ∧ trait_value (u "Rarity") (document f n) = Some (JString (rarity f)).
Proof. repeat split; reflexivity. Qed.

Lemma blank_id_true row :
  blank_id row = true ↔
    row !! u "ID" = None ∨ row !! u "ID" = Some PNone
    ∨ ∃ s, row !! u "ID" = Some (PStr s) ∧ strip s = [].
Proof.
  unfold blank_id. destruct (row !! u "ID") as [[|s]|].
  - split; [auto|done].
  - rewrite orb_true_iff, !negb_true_iff. split.
    + intros [H|H]; right; right; exists s; split; try done.
      * destruct s; [done|discriminate].
      * by destruct (strip s).
    + intros [?|[?|(s' & [= <-] & ->)]]; try done. by right.
  - split; [auto|done].
Qed.

(** *** The ways through one iteration *)

Lemma process_row_blank W st row :
  blank_id row = true → process_row W st row = st.
Proof. unfold process_row. by intros ->. Qed.

Lemma process_row_raise W st row e :
  blank_id row = false → extract row = inl e →
  process_row W st row
  = skip (print (u "⚠ Error processing row " ++ shown_id row ++ u ": "
                   ++ u "'NoneType' object has no attribute 'strip'") st).
Proof.
  intros Hb He. unfold process_row. rewrite Hb, build_extract, He.
  by rewrite (extract_inl _ _ He).
Qed.

Lemma process_row_missing W st row f :
  blank_id row = false → extract row = inr f → validated f = false →
  process_row W st row
  = skip (print (u "⚠ Skipping row " ++ gem_id f
                   ++ u ": Missing required fields") st).
Proof.
  intros Hb He Hv. unfold process_row. rewrite Hb, build_extract, He.
  unfold assemble. by rewrite Hv.
Qed.

Lemma process_row_carat W st row f :
  blank_id row = false → extract row = inr f → validated f = true →
  PyInt.int (carat f) = None →
  process_row W st row
  = skip (print (u "⚠ Skipping row " ++ gem_id f
                   ++ u ": Invalid carat value '" ++ carat f ++ u "'") st).
Proof.
  intros Hb He Hv Hn. unfold process_row. rewrite Hb, build_extract, He.
  unfold assemble. by rewrite Hv, Hn.
Qed.



Lemma process_row_written W st row f n :
  blank_id row = false → extract row = inr f → validated f = true →
  PyInt.int (carat f) = Some n →
  write_error W (gem_id f ++ u ".json") = None →
  process_row W st row = write_json W (gem_id f) (document f n) st.
Proof.
  intros Hb He Hv Hn Hw. unfold process_row. rewrite Hb, build_extract, He.
  unfold assemble. rewrite Hv, Hn. cbn [negb]. by rewrite Hw.
Qed.

Lemma files_write_json W row_id doc st :
  files (write_json W row_id doc st)
  = <[file_of W (row_id ++ u ".json") := dumps doc 4]> (files st).
Proof. unfold write_json. cbn [processed_count]. by case (_ =? _)%nat. Qed.

Lemma counts_write_json W row_id doc st :
  processed_count (write_json W row_id doc st) = S (processed_count st)
  ∧ skipped_count (write_json W row_id doc st) = skipped_count st.
Proof. unfold write_json. cbn [processed_count]. by case (_ =? _)%nat. Qed.

(** ** Row-level claims *)

(** C6. A row whose identifier column is missing (no such key, or [None]
    under it) or blank after trimming is passed over in silence: the
    iteration leaves the whole state as it was, so no document is written,
    nothing is printed and the skipped count is not incremented. *)
Theorem blank_identifier_silently_skipped (W : directory) (st : state)
    (row : gmap str pyval) :
  (missing row (u "ID") ∨ ∃ s, row !! u "ID" = Some (PStr s) ∧ strip s = []) →
  process_row W st row = st.
Proof.
  intros H. apply process_row_blank, blank_id_true.
  destruct H as [[H|H]|H]; auto.
Qed.

Lemma blank_identifier_silently_skipped_witness :
  process_row plain_dir fresh
    (dict_of_row REQUIRED_COLUMNS
       (sample_fields (u "   ") (u "Ruby") (u "#FF0000") (u "Brilliant") (u "3")))
  = fresh.
Proof.
  apply blank_identifier_silently_skipped.
  right. exists (u "   "). split; reflexivity.
Defined.

(** C3. The Color trait of the document built from a row is the trimmed
    Category column when that is not blank, and the trimmed Color column
    otherwise; Category "Ruby" with Color "#FF0000" gives "Ruby", a blank
    Category with Color "#FF0000" gives "#FF0000". *)
Theorem color_resolution (row : gmap str pyval) (row_id : str) (doc : json)
    (cat col : str) :
  build row = inr (Built row_id doc) →
  column row (u "Category") = Some cat →
  column row (u "Color") = Some col →
  trait_value (u "Color") doc
  = Some (JString (if truthy cat then cat else col))
  ∧ (document_of (sample_row (u "Ruby") (u "#FF0000") (u "Brilliant") (u "3"))
       ≫= trait_value (u "Color")) = Some (JString (u "Ruby"))
  ∧ (document_of (sample_row (u "  ") (u "#FF0000") (u "Brilliant") (u "3"))
       ≫= trait_value (u "Color")) = Some (JString (u "#FF0000")).
Proof.
  intros Hb Hcat Hcol. split; [|split; reflexivity].
  apply build_Built in Hb as (f & n & He & _ & _ & _ & ->).
  apply extract_inr in He as (_ & _ & Hc1 & Hc2 & _).
  rewrite Hcat in Hc1. rewrite Hcol in Hc2.
  injection Hc1 as ->. injection Hc2 as ->.
  apply trait_values.
Qed.

Lemma color_resolution_witness :
  let row := sample_row (u " Ruby ") (u "#FF0000") (u "Brilliant") (u "3") in
  build row = inr (Built (u "1") sample_document)
  ∧ column row (u "Category") = Some (u "Ruby")
  ∧ column row (u "Color") = Some (u "#FF0000")
  ∧ trait_value (u "Color") sample_document = Some (JString (u "Ruby")).
Proof.
  intros row. repeat (split; [reflexivity|]).
  refine (proj1 (color_resolution row (u "1") sample_document (u "Ruby")
                   (u "#FF0000") _ _ _)); reflexivity.
Defined.

(** C4. The description of a document is "A unique <displayed cut> cut
    gemstone in <resolved color> color.", the displayed cut being the cut
    itself except that "Brilliant" is shown as "RoundBrilliant"; the Cut
    trait keeps the cut as it was read. *)
Theorem description_synthesis (row : gmap str pyval) (row_id : str)
    (doc : json) (c : str) :
  build row = inr (Built row_id doc) →
  column row (u "Cut") = Some c →
  ∃ color,
    trait_value (u "Color") doc = Some (JString color)
    ∧ item (u "description") doc
      = Some (JString (u "A unique "
                         ++ (if decide (c = u "Brilliant")
                             then u "RoundBrilliant" else c)
                         ++ u " cut gemstone in " ++ color ++ u " color."))
    ∧ trait_value (u "Cut") doc = Some (JString c)
    ∧ generate_description (u "Brilliant") (u "Ruby")
      = u "A unique RoundBrilliant cut gemstone in Ruby color."
    ∧ generate_description (u "Princess") (u "Emerald")
      = u "A unique Princess cut gemstone in Emerald color.".
Proof.
  intros Hb Hcut.
  apply build_Built in Hb as (f & n & He & _ & _ & _ & ->).
  apply extract_inr in He as (_ & _ & _ & _ & Hc & _).
  rewrite Hcut in Hc. injection Hc as ->.
  exists (color_name f). repeat split; reflexivity.
Qed.

Lemma description_synthesis_witness :
  let row := sample_row (u "Ruby") (u "#FF0000") (u "Brilliant") (u "3") in
  build row = inr (Built (u "1") sample_document)
  ∧ column row (u "Cut") = Some (u "Brilliant")
  ∧ ∃ color,
      trait_value (u "Color") sample_document = Some (JString color)
      ∧ item (u "description") sample_document
        = Some (JString (u "A unique " ++ u "RoundBrilliant"
                           ++ u " cut gemstone in " ++ color ++ u " color."))
      ∧ trait_value (u "Cut") sample_document = Some (JString (u "Brilliant")).
Proof.
  intros row. repeat (split; [reflexivity|]).
  destruct (description_synthesis row (u "1") sample_document (u "Brilliant"))
    as (color & Hcolor & Hdescription & Hcut & _); [reflexivity..|].
  exists color. repeat split; assumption.
Defined.

Lemma column_trimmed (row : gmap str pyval) k s :
  column row k = Some s → strip s = s.
Proof.
  unfold column. destruct (get row k (PStr [])); [done|].
  intros [= <-]. apply strip_idem.
Qed.

Lemma strip_nonblank_head c s : isspace c = false → strip (c :: s) ≠ [].
Proof.
  intros Hc. unfold strip. simpl. rewrite Hc. by rewrite rstrip_cons.
Qed.

Lemma description_nonblank c col : strip (generate_description c col) ≠ [].
Proof. unfold generate_description. by apply strip_nonblank_head. Qed.

(** Every document built has the shape [Document]. *)
Lemma build_Document (row : gmap str pyval) (row_id : str) (doc : json) :
  build row = inr (Built row_id doc) → Document doc.
Proof.
  intros Hb. apply build_Built in Hb as (f & n & He & Hv & _ & _ & ->).
  apply validated_true in Hv as (? & Hcolor & ? & ? & ? & ? & ? & ?).
  apply extract_inr in He
    as (_ & Hname & Hcat & Hcol & Hcut & _ & Hcl & Hr & Him & Han).
  exists (name f), (generate_description (cut f) (color_name f)), (cut f),
    (color_name f), (clarity f), (rarity f), (image f), (animation_url f), n.
  split; [reflexivity|].
  rewrite (column_trimmed _ _ _ Hname), (column_trimmed _ _ _ Hcut),
    (column_trimmed _ _ _ Hcl), (column_trimmed _ _ _ Hr),
    (column_trimmed _ _ _ Him), (column_trimmed _ _ _ Han).
  repeat split; try assumption.
  - apply description_nonblank.
  - revert Hcolor. unfold color_name. destruct (truthy (category f)).
    + by rewrite (column_trimmed _ _ _ Hcat).
    + by rewrite (column_trimmed _ _ _ Hcol).
Qed.

(** C5. A document has its five traits in the order Cut, Color, Carat,
    Clarity, Rarity, the Carat value an integer, and no string field of it
    is blank after trimming; a document is built only from a row whose
    eight extracted fields are all non-blank. *)
Theorem document_shape (row : gmap str pyval) (row_id : str) (doc : json) :
  build row = inr (Built row_id doc) →
  Document doc
  ∧ ∃ f, extract row = inr f
         ∧ name f ≠ [] ∧ color_name f ≠ [] ∧ cut f ≠ [] ∧ carat f ≠ []
         ∧ clarity f ≠ [] ∧ rarity f ≠ [] ∧ image f ≠ []
         ∧ animation_url f ≠ [].
Proof.
  intros Hb. split; [exact (build_Document _ _ _ Hb)|].
  apply build_Built in Hb as (f & n & He & Hv & _).
  apply validated_true in Hv. by exists f.
Qed.

Lemma document_shape_witness :
  let row := sample_row (u "Ruby") (u "#FF0000") (u "Brilliant") (u "3") in
  build row = inr (Built (u "1") sample_document)
  ∧ Document sample_document.
Proof.
  intros row. split; [reflexivity|].
  apply (document_shape row (u "1") sample_document). reflexivity.
Defined.

(** C1, as the code has it.  A row that passes the identifier check is
    skipped, with no file written or changed, the processed count as it was
    and the skipped count one higher, when one of the seven columns 名稱,
    Cut, Carat, Clarity, Rarity, image, animation_url is missing (no such
    key, or [None] under it), when Category or Color holds [None], or when
    both Category and Color are missing. *)
Theorem missing_column_skipped (W : directory) (st : state)
    (row : gmap str pyval) :
  blank_id row = false →
  (∃ k, k ∈ [u "名稱"; u "Cut"; u "Carat"; u "Clarity"; u "Rarity"; u "image";
             u "animation_url"] ∧ missing row k)
  ∨ (row !! u "Category" = Some PNone ∨ row !! u "Color" = Some PNone)
  ∨ (missing row (u "Category") ∧ missing row (u "Color")) →
  files (process_row W st row) = files st
  ∧ processed_count (process_row W st row) = processed_count st
  ∧ skipped_count (process_row W st row) = S (skipped_count st).
Proof.
  intros Hb Hm. destruct (extract row) as [e|f] eqn:He.
  { rewrite (process_row_raise _ _ _ _ Hb He). by repeat split. }
  assert (validated f = false) as Hv.
  { destruct (validated f) eqn:Hv; [exfalso|done].
    apply validated_true in Hv
      as (Hn & Hcn & Hcu & Hca & Hcl & Hr & Him & Han).
    apply extract_inr in He
      as (_ & Cn & Ccat & Ccol & Ccu & Cca & Ccl & Cr & Cim & Can).
    destruct Hm as [(k & Hk & Hmiss)|[[Hnone|Hnone]|[Hm1 Hm2]]].
    - repeat (apply elem_of_cons in Hk as [->|Hk];
              [eauto using column_missing|]).
      by apply elem_of_nil in Hk.
    - revert Ccat. unfold column. by rewrite (get_present _ _ _ _ Hnone).
    - revert Ccol. unfold column. by rewrite (get_present _ _ _ _ Hnone).
    - apply Hcn. unfold color_name.
      rewrite (column_missing _ _ _ Hm1 Ccat). cbn [truthy].
      exact (column_missing _ _ _ Hm2 Ccol). }
  rewrite (process_row_missing _ _ _ _ Hb He Hv). by repeat split.
Qed.

Lemma missing_column_skipped_witness :
  let row := dict_of_row (header_without (u "Cut"))
               [u "1"; u "Crimson Star"; u "Ruby"; u "#FF0000"; u "3"; u "VS1";
                u "Rare"; u "ipfs://image/1"; u "ipfs://animation/1"] in
  blank_id row = false
  ∧ missing row (u "Cut")
  ∧ files (process_row plain_dir fresh row) = ∅
  ∧ skipped_count (process_row plain_dir fresh row) = 1%nat.
Proof.
  intros row.
  assert (Hm : missing row (u "Cut")) by (left; reflexivity).
  split; [reflexivity|]. split; [exact Hm|].
  destruct (missing_column_skipped plain_dir fresh row) as (Hf & _ & Hs).
  - reflexivity.
  - left. exists (u "Cut"). split; [|exact Hm].
    apply list_elem_of_In. right. left. reflexivity.
  - split; assumption.
Defined.

(** C1 as stated fails.  A row of a table without the Category column is
    not skipped: its document is written and nothing is counted.  And when
    a row is skipped for a missing column, the line printed does not name
    the column. *)
Lemma missing_category_not_skipped :
  let row := dict_of_row (header_without (u "Category"))
               [u "1"; u "Crimson Star"; u "#FF0000"; u "Brilliant"; u "3";
                u "VS1"; u "Rare"; u "ipfs://image/1"; u "ipfs://animation/1"] in
  let short := dict_of_row REQUIRED_COLUMNS
                 [u "1"; u "Crimson Star"; u "Ruby"; u "#FF0000"] in
  let cutless := dict_of_row (header_without (u "Cut"))
                   [u "1"; u "Crimson Star"; u "Ruby"; u "#FF0000"; u "3";
                    u "VS1"; u "Rare"; u "ipfs://image/1";
                    u "ipfs://animation/1"] in
  (missing row (u "Category")
   ∧ is_Some (files (process_row plain_dir fresh row) !! u "1.json")
   ∧ processed_count (process_row plain_dir fresh row) = 1%nat
   ∧ skipped_count (process_row plain_dir fresh row) = 0%nat)
  ∧ (missing cutless (u "Cut")
     ∧ stdout (process_row plain_dir fresh cutless)
       = [u "⚠ Skipping row 1: Missing required fields"])
  ∧ (missing short (u "Cut")
     ∧ stdout (process_row plain_dir fresh short)
       = [u "⚠ Error processing row 1: 'NoneType' object has no attribute 'strip'"]).
Proof.
  intros row short cutless. split; [|split].
  - split; [by left|]. split; [|split; vm_compute; reflexivity].
    eexists. vm_compute. reflexivity.
  - split; [by left|]. vm_compute. reflexivity.
  - split; [by right|]. vm_compute. reflexivity.
Qed.

(** C2. For a row that reaches the carat coercion (identifier present,
    extraction done, the eight fields non-blank): when the trimmed carat
    text reads as an integer, the document carries that integer as its
    Carat trait, "3" giving 3; when it does not, as for "3.5" and "three",
    the row is skipped with one line naming the identifier and the text,
    the skipped count grows by one and no file is written. *)
Theorem carat_coercion (W : directory) (st : state) (row : gmap str pyval)
    (f : fields) :
  blank_id row = false → extract row = inr f → validated f = true →
  match PyInt.int (carat f) with
  | Some n =>
      build row = inr (Built (gem_id f) (document f n))
      ∧ trait_value (u "Carat") (document f n) = Some (JInt n)
  | None =>
      process_row W st row
      = skip (print (u "⚠ Skipping row " ++ gem_id f
                       ++ u ": Invalid carat value '" ++ carat f ++ u "'") st)
      ∧ document_of row = None
      ∧ files (process_row W st row) = files st
      ∧ processed_count (process_row W st row) = processed_count st
      ∧ skipped_count (process_row W st row) = S (skipped_count st)
  end
  ∧ PyInt.int (u "3") = Some 3%Z
  ∧ PyInt.int (u "3.5") = None
  ∧ PyInt.int (u "three") = None.
Proof.
  intros Hb He Hv. split; [|by vm_compute].
  destruct (PyInt.int (carat f)) as [n|] eqn:Hn.
  - split; [|apply trait_values].
    apply build_Built. exists f, n. eauto.
  - rewrite (process_row_carat _ _ _ _ Hb He Hv Hn).
    split; [reflexivity|]. split; [|by repeat split].
    unfold document_of. rewrite build_extract, He. unfold assemble.
    by rewrite Hv, Hn.
Qed.

Lemma carat_coercion_witness :
  let row := sample_row (u "Ruby") (u "#FF0000") (u "Brilliant") (u "three") in
  blank_id row = false
  ∧ stdout (process_row plain_dir fresh row)
    = [u "⚠ Skipping row 1: Invalid carat value 'three'"]
  ∧ skipped_count (process_row plain_dir fresh row) = 1%nat.
Proof.
  intros row.
  pose proof (carat_coercion plain_dir fresh row
                {| gem_id := u "1"; name := u "Crimson Star";
                   category := u "Ruby"; color_code := u "#FF0000";
                   cut := u "Brilliant"; carat := u "three";
                   clarity := u "VS1"; rarity := u "Rare";
                   image := u "ipfs://image/1";
                   animation_url := u "ipfs://animation/1" |}
                eq_refl eq_refl eq_refl) as [H _].
  cbv beta iota zeta delta [carat] in H.
  change (PyInt.int (u "three")) with (@None Z) in H.
  destruct H as (Hrow & _ & _ & _ & Hskipped).
  split; [reflexivity|]. split; [|exact Hskipped].
  rewrite Hrow. reflexivity.
Defined.

(** C10. A signed or underscore-separated carat text is read as an
    integer, not refused: "+3" is 3, "-3" is -3 and "1_0" is 10; the row is
    not skipped, and its file carries that integer, negative or not, as the
    Carat trait. *)
Theorem lenient_carat (W : directory) (st : state) (row : gmap str pyval)
    (f : fields) (n : Z) :
  blank_id row = false → extract row = inr f → validated f = true →
  (carat f, n) ∈ [(u "+3", 3%Z); (u "-3", (-3)%Z); (u "1_0", 10%Z)] →
  write_error W (gem_id f ++ u ".json") = None →
  PyInt.int (carat f) = Some n
  ∧ build row = inr (Built (gem_id f) (document f n))
  ∧ trait_value (u "Carat") (document f n) = Some (JInt n)
  ∧ files (process_row W st row)
    = <[file_of W (gem_id f ++ u ".json") := dumps (document f n) 4]> (files st)
  ∧ processed_count (process_row W st row) = S (processed_count st)
  ∧ skipped_count (process_row W st row) = skipped_count st.
Proof.
  intros Hb He Hv Hin Hw.
  assert (PyInt.int (carat f) = Some n) as Hn.
  { repeat (apply elem_of_cons in Hin as [[= -> ->]|Hin]; [by vm_compute|]).
    by apply elem_of_nil in Hin. }
  split; [exact Hn|]. split; [apply build_Built; exists f, n; eauto|].
  split; [apply trait_values|].
  rewrite (process_row_written _ _ _ _ _ Hb He Hv Hn Hw).
  split; [apply files_write_json|apply counts_write_json].
Qed.

Lemma lenient_carat_witness :
  let row := sample_row (u "Ruby") (u "#FF0000") (u "Brilliant") (u "-3") in
  blank_id row = false
  ∧ document_of row ≫= trait_value (u "Carat") = Some (JInt (-3))
  ∧ skipped_count (process_row plain_dir fresh row) = 0%nat.
Proof.
  intros row.
  destruct (lenient_carat plain_dir fresh row
              {| gem_id := u "1"; name := u "Crimson Star";
                 category := u "Ruby"; color_code := u "#FF0000";
                 cut := u "Brilliant"; carat := u "-3";
                 clarity := u "VS1"; rarity := u "Rare";
                 image := u "ipfs://image/1";
                 animation_url := u "ipfs://animation/1" |} (-3)%Z)
    as (_ & Hbuild & Hcarat & _ & _ & Hskipped).
  - reflexivity.
  - reflexivity.
  - reflexivity.
  - apply list_elem_of_In. right. left. reflexivity.
  - reflexivity.
  - split; [reflexivity|]. split; [|exact Hskipped].
    unfold document_of. rewrite Hbuild. exact Hcarat.
Defined.

(** ** The loop as a whole *)

Lemma files_process_row W st row :
  files (process_row W st row) = apply_write (files st) (row_leaves W row).
Proof.
  unfold process_row, row_leaves. destruct (blank_id row); [done|].
  destruct (build row) as [e|[row_id|row_id raw|row_id doc]]; try done.
  - by destruct e.
  - destruct (write_error W (row_id ++ u ".json")) as [[msg|msg written]|];
      [done|done|apply files_write_json].
Qed.

Lemma files_loop W rows : ∀ st,
  files (foldl (process_row W) st rows)
  = foldl apply_write (files st) (map (row_leaves W) rows).
Proof.
  induction rows as [|row rows IH]; intros st; [done|].
  cbn [foldl map]. by rewrite IH, files_process_row.
Qed.

Lemma lookup_writes (ws : list (option (str * str))) : ∀ (m : gmap str str) k,
  foldl apply_write m ws !! k
  = match last_write k ws with
    | Some v => Some v
    | None => m !! k
    end.
Proof.
  induction ws as [|w ws IH]; intros m k; [done|].
  cbn [foldl last_write]. rewrite IH.
  destruct (last_write k ws); [done|].
  destruct w as [[k' v]|]; [|done]. cbn [apply_write].
  destruct (decide (k = k')) as [->|Hne].
  - by rewrite lookup_insert_eq.
  - by rewrite lookup_insert_ne.
Qed.

(** Replaying the same writes changes nothing. *)
Lemma writes_idem (ws : list (option (str * str))) (m : gmap str str) :
  foldl apply_write (foldl apply_write m ws) ws = foldl apply_write m ws.
Proof.
  apply map_eq. intros k. rewrite !lookup_writes.
  by destruct (last_write k ws).
Qed.

Lemma files_print line st : files (print line st) = files st.
Proof. reflexivity. Qed.

Lemma files_csv_to_json E csv_file output_dir store st :
  files (csv_to_json E csv_file output_dir store st).2
  = match mkdir_error E, store with
    | None, Table records _ =>
        foldl apply_write (files st)
          (map (row_leaves (at_dir E (Path E output_dir))) (DictReader records))
    | _, _ => files st
    end.
Proof.
  unfold csv_to_json. destruct (mkdir_error E); [done|].
  destruct store as [|msg|msg|records [msg|]]; try done.
  - cbn [snd]. by rewrite files_print, files_loop.
  - cbn [snd]. unfold summary.
    match goal with
    | |- context [if ?b then _ else _] => destruct b
    end; by rewrite !files_print, files_loop.
Qed.

(** C9. Running the transform again on the same byte store, with the same
    output directory, leaves every output file as the first run left it. *)
Theorem transform_idempotent (E : env) (csv_file output_dir : str)
    (store : byte_store) (st : state) :
  let first := (csv_to_json E csv_file output_dir store st).2 in
  files (csv_to_json E csv_file output_dir store first).2 = files first.
Proof.
  intros first. unfold first. rewrite !files_csv_to_json.
  destruct (mkdir_error E); [done|].
  destruct store as [|msg|msg|records failure]; try done.
  apply writes_idem.
Qed.

(** One iteration counts a row that passed the identifier check exactly
    once, as processed or as skipped. *)
Lemma process_row_counts W st row :
  blank_id row = false →
  (processed_count (process_row W st row) = S (processed_count st)
   ∧ skipped_count (process_row W st row) = skipped_count st)
  ∨ (processed_count (process_row W st row) = processed_count st
     ∧ skipped_count (process_row W st row) = S (skipped_count st)).
Proof.
  intros Hb. unfold process_row. rewrite Hb.
  destruct (build row) as [e|[row_id|row_id raw|row_id doc]].
  - right. by destruct e.
  - by right.
  - by right.
  - destruct (write_error W (row_id ++ u ".json")) as [[msg|msg written]|];
      [by right|by right|].
    left. apply counts_write_json.
Qed.

Lemma loop_counts W rows : ∀ st,
  (processed_count (foldl (process_row W) st rows)
   + skipped_count (foldl (process_row W) st rows)
   = processed_count st + skipped_count st + length (identified rows))%nat.
Proof.
  induction rows as [|row rows IH]; intros st; cbn [foldl].
  - cbn. lia.
  - rewrite IH. unfold identified. cbn [List.filter].
    destruct (blank_id row) eqn:Hb; cbn [negb].
    + by rewrite process_row_blank.
    + cbn [length].
      destruct (process_row_counts W st row Hb) as [[-> ->]|[-> ->]]; lia.
Qed.

Lemma stdout_summary output_dir st :
  stdout (summary output_dir st)
  = stdout st ++ summary_lines output_dir (processed_count st) (skipped_count st).
Proof.
  unfold summary, summary_lines. cbn [skipped_count print processed_count].
  destruct (0 <? skipped_count st)%nat; cbn [stdout print];
    by rewrite <- !app_assoc.
Qed.





(** ** The orchestrator *)

Lemma download_csv_prints urlopen E spreadsheet_id gid output_file st :
  files (download_csv urlopen E spreadsheet_id gid output_file st).2 = files st.
Proof.
  unfold download_csv.
  destruct (urlopen _) as [code reason|reason|msg|size msg|store size lines];
    cbn [snd]; try reflexivity.
  by destruct (code =? 403).
Qed.

Lemma download_csv_false urlopen E spreadsheet_id gid output_file st :
  (download_csv urlopen E spreadsheet_id gid output_file st).1.1 = false →
  (download_csv urlopen E spreadsheet_id gid output_file st).1.2 = None.
Proof.
  unfold download_csv.
  by destruct (urlopen _) as [code reason|reason|msg|size msg|store size lines].
Qed.

(** C8. With the download bypassed and no byte store, and likewise when the
    download is attempted and fails, the run stops before the transform:
    [sync_google_sheet] returns failure, [main] exits with status 1, the
    state is that of the lines printed up to the abort, and the output
    files are as they were. *)
Theorem orchestrator_aborts (urlopen : str -> fetched) (E : env) (a : args)
    (store : byte_store) (st : state) :
  (skip_download a = true ∧ store = Absent)
  ∨ (skip_download a = false
     ∧ (download_csv urlopen E (spreadsheet_id a) (gid a) (csv a)
          (banner st)).1.1 = false) →
  sync_google_sheet urlopen E (spreadsheet_id a) (gid a) (csv a) (output a)
    (skip_download a) store st
  = (Returned false, aborted urlopen E a st)
  ∧ main urlopen E (Namespace a) store st = (1, aborted urlopen E a st)
  ∧ files (aborted urlopen E a st) = files st.
Proof.
  intros H.
  assert (sync_google_sheet urlopen E (spreadsheet_id a) (gid a) (csv a)
            (output a) (skip_download a) store st
          = (Returned false, aborted urlopen E a st)) as Hsync.
  { unfold sync_google_sheet, aborted.
    destruct H as [[-> ->]|[-> Hfail]]; cbn [negb]; [reflexivity|].
    pose proof (download_csv_false _ _ _ _ _ _ Hfail) as Hnone.
    destruct (download_csv urlopen E (spreadsheet_id a) (gid a) (csv a)
                (banner st)) as [[ok fetched_store] st'].
    cbn [fst snd] in *. subst. reflexivity. }
  split; [exact Hsync|]. split.
  - unfold main. by rewrite Hsync.
  - unfold aborted. destruct (skip_download a); [reflexivity|].
    by rewrite files_print, download_csv_prints.
Qed.

Lemma orchestrator_aborts_witness :
  main forbidden no_directory (Namespace (default_args false)) sample_table fresh
  = (1, aborted forbidden no_directory (default_args false) fresh)
  ∧ main forbidden no_directory (Namespace (default_args true)) Absent fresh
    = (1, aborted forbidden no_directory (default_args true) fresh).
Proof.
  split.
  - apply (orchestrator_aborts forbidden no_directory (default_args false)
             sample_table fresh).
    right. split; reflexivity.
  - apply (orchestrator_aborts forbidden no_directory (default_args true)
             Absent fresh).
    left. split; reflexivity.
Defined.

(** * Further properties of the code *)

(** ** Exit status *)

Lemma csv_to_json_returns E csv_file output_dir store st :
  (csv_to_json E csv_file output_dir store st).1
  = match mkdir_error E, store with
    | Some msg, _ => Raised msg
    | None, Inaccessible msg => Raised msg
    | None, Table _ None => Returned true
    | None, _ => Returned false
    end.
Proof.
  unfold csv_to_json. destruct (mkdir_error E); [done|].
  by destruct store as [|msg|msg|records [msg|]].
Qed.

Lemma convert_returns E csv_file output_dir store st :
  (convert E csv_file output_dir store st).1
  = (csv_to_json E csv_file output_dir store st).1.
Proof.
  unfold convert.
  by destruct (csv_to_json E csv_file output_dir store st) as [[[|]|msg] st'].
Qed.

Lemma files_printed lines : ∀ st,
  files (foldl (fun st line => print line st) st lines) = files st.
Proof. induction lines as [|l lines IH]; intros st; [done|]. cbn. by rewrite IH. Qed.

(** The status of a run whose command line was parsed. *)
Lemma main_status urlopen E a store st :
  (main urlopen E (Namespace a) store st).1
  = match used_store urlopen a store with
    | Some s =>
        match mkdir_error E, s with
        | None, Table _ None => 0
        | _, _ => 1
        end
    | None => 1
    end.
Proof.
  assert (Hconv : ∀ s t,
    (let '(r, t') := convert E (csv a) (output a) s t in
     match r with Returned true => (0, t') | _ => (1, t') end).1
    = match mkdir_error E, s with
      | None, Table _ None => 0
      | _, _ => 1
      end).
  { intros s t. pose proof (convert_returns E (csv a) (output a) s t) as Hc.
    destruct (convert E (csv a) (output a) s t) as [r t']. cbn [fst] in Hc.
    rewrite csv_to_json_returns in Hc. subst r.
    destruct (mkdir_error E); [done|].
    by destruct s as [|msg|msg|records [msg|]]. }
  unfold main, sync_google_sheet, used_store, download_csv.
  destruct (skip_download a); cbn [negb].
  - destruct store as [|msg|msg|records failure].
    + by destruct (mkdir_error E).
    + by destruct (mkdir_error E).
    + rewrite <- (Hconv (Unopenable msg)
                   (print (u "⏭ Skipping download, using existing CSV: "
                             ++ csv a ++ [0x0A]) (banner st))).
      by destruct (convert _ _ _ _ _) as [[[|]|?] ?].
    + rewrite <- (Hconv (Table records failure)
                   (print (u "⏭ Skipping download, using existing CSV: "
                             ++ csv a ++ [0x0A]) (banner st))).
      by destruct (convert _ _ _ _ _) as [[[|]|?] ?].
  - destruct (urlopen (export_url (spreadsheet_id a) (gid a)))
      as [code reason|reason|msg|size msg|fetched_store size lines];
      [done|done|done|done|].
    apply Hconv.
Qed.

(** X1. When the command line parser ends the program itself (a usage
    error, --help), [main] ends with the parser's status and no output file
    is touched.  When the command line is parsed, [main] exits with status
    0 exactly when the output directory can be created and the byte store
    the run converts (the existing one under --skip-download, the one just
    downloaded otherwise) is a table read to its end; in every other case
    the status is 1.  What the rows hold never changes the status. *)
Theorem exit_status (urlopen : str -> fetched) (E : env) (p : parsed)
    (store : byte_store) (st : state) :
  match p with
  | ParserExit status printed =>
      (main urlopen E p store st).1 = status
      ∧ files (main urlopen E p store st).2 = files st
  | Namespace a =>
      ((main urlopen E p store st).1 = 0
       ↔ mkdir_error E = None
         ∧ ∃ records, used_store urlopen a store = Some (Table records None))
      ∧ ((main urlopen E p store st).1 = 0 ∨ (main urlopen E p store st).1 = 1)
  end.
Proof.
  destruct p as [status printed|a].
  { split; [reflexivity|]. cbn [main snd]. apply files_printed. }
  rewrite main_status.
  destruct (used_store urlopen a store) as [[|msg|msg|records [msg|]]|];
    destruct (mkdir_error E) as [msg'|]; split;
    try (by right); try (by left);
    split; try done; try (by intros [? [? [=]]]); try (by intros [[=] _]).
  intros _. split; [done|]. by exists records.
Qed.

(** ** The output directory after a run *)

Lemma last_write_None k ws :
  last_write k ws = None ↔ Forall (fun w => ∀ v, w ≠ Some (k, v)) ws.
Proof.
  induction ws as [|w ws IH]; cbn [last_write].
  - split; [constructor|done].
  - destruct (last_write k ws) as [x|].
    + split; [done|]. intros H. apply Forall_cons in H as [_ H].
      by apply IH in H.
    + destruct w as [[k' v]|].
      * destruct (decide (k = k')) as [->|Hne].
        -- split; [done|]. intros H. apply Forall_cons in H as [H _].
           by destruct (H v).
        -- split; [|done]. intros _. constructor; [|by apply IH].
           intros v' [= ? ?]. by subst.
      * split; [|done]. intros _. constructor; [done|by apply IH].
Qed.

Lemma last_write_app k ws1 w ws2 :
  last_write k ws2 = None →
  last_write k (ws1 ++ w :: ws2)
  = match w with
    | Some (k', v) => if decide (k = k') then Some v else last_write k ws1
    | None => last_write k ws1
    end.
Proof.
  intros H2. induction ws1 as [|w1 ws1 IH]; cbn [app last_write].
  - rewrite H2. destruct w as [[k' v]|]; [|done]. by destruct (decide (k = k')).
  - rewrite IH. destruct w as [[k' v]|].
    + by destruct (decide (k = k')).
    + done.
Qed.

(** X2. Rows are handled in table order and the last row to touch a file
    decides what it holds: if a row leaves text [v] in file [k] (the file
    its name resolves to; two identifiers may resolve to one file) and no
    row after it touches [k], then after [csv_to_json] file [k] holds [v],
    whatever rows before it left there and whether or not reading fails
    later. *)
Theorem last_row_wins (E : env) (csv_file output_dir : str)
    (records : list (list str)) (failure : option str) (st : state)
    (before after : list (gmap str pyval)) (row : gmap str pyval)
    (k v : str) :
  let W := at_dir E (Path E output_dir) in
  mkdir_error E = None →
  DictReader records = before ++ row :: after →
  row_leaves W row = Some (k, v) →
  (∀ r, r ∈ after → ∀ v', row_leaves W r ≠ Some (k, v')) →
  files (csv_to_json E csv_file output_dir (Table records failure) st).2 !! k
  = Some v.
Proof.
  intros W Hmk Hrows Hw Hafter.
  rewrite files_csv_to_json, Hmk, Hrows, map_app. cbn [map]. fold W.
  rewrite lookup_writes, last_write_app, Hw.
  - by rewrite decide_True.
  - apply last_write_None, Forall_forall. intros w Hin.
    apply list_elem_of_In, in_map_iff in Hin as (r & <- & Hr).
    apply Hafter. by apply list_elem_of_In.
Qed.

Lemma last_row_wins_witness :
  let final :=
    (csv_to_json dotted_env (u "gem.csv") (u "json") aliased_table fresh).2 in
  files final !! u "1.json" = Some (dumps (document second_sample 5) 4)
  ∧ size (files final) = 1%nat.
Proof.
  intros final. split; [|vm_compute; reflexivity].
  apply (last_row_wins dotted_env (u "gem.csv") (u "json") _ None fresh
           [dict_of_row REQUIRED_COLUMNS
              (sample_fields (u "./1") (u "Ruby") (u "#FF0000") (u "Brilliant") (u "3"))]
           []
           (dict_of_row REQUIRED_COLUMNS
              (sample_fields (u "1") (u "Emerald") (u "#00FF00") (u "Princess") (u "5")))).
  - reflexivity.
  - reflexivity.
  - vm_compute. reflexivity.
  - intros r Hr. by apply elem_of_nil in Hr.
Defined.

(** X3. [csv_to_json] leaves every file alone that no row of the table
    touches (neither by a write in full nor by one cut short): it deletes
    nothing and changes no other file, whatever the byte store and the
    outcome are. *)
Theorem other_files_untouched (E : env) (csv_file output_dir : str)
    (store : byte_store) (st : state) (k : str) :
  (∀ records failure r v,
     store = Table records failure → r ∈ DictReader records →
     row_leaves (at_dir E (Path E output_dir)) r ≠ Some (k, v)) →
  files (csv_to_json E csv_file output_dir store st).2 !! k = files st !! k.
Proof.
  intros Hno. rewrite files_csv_to_json.
  destruct (mkdir_error E); [done|].
  destruct store as [|msg|msg|records failure]; try done.
  rewrite lookup_writes.
  assert (last_write k (map (row_leaves (at_dir E (Path E output_dir)))
                          (DictReader records)) = None) as ->;
    [|done].
  apply last_write_None, Forall_forall. intros w Hin v.
  apply list_elem_of_In, in_map_iff in Hin as (r & <- & Hr).
  apply (Hno records failure); [done|]. by apply list_elem_of_In.
Qed.

Lemma other_files_untouched_witness :
  let st := {| files := {[ u "9.json" := u "{}" ]}; stdout := [];
               processed_count := 0; skipped_count := 0 |} in
  files (csv_to_json dotted_env (u "gem.csv") (u "json") aliased_table st).2
    !! u "9.json"
  = Some (u "{}").
Proof.
  intros st.
  rewrite (other_files_untouched dotted_env (u "gem.csv") (u "json")
             aliased_table st (u "9.json")); [reflexivity|].
  intros records failure r v [= <- <-] Hr.
  apply list_elem_of_In in Hr. destruct Hr as [<-|[<-|[]]];
    vm_compute; discriminate.
Defined.



Lemma process_row_processed W st r :
  processed_count (process_row W st r)
  = (processed_count st
     + if bool_decide (is_Some (row_write W r)) then 1 else 0)%nat.
Proof.
  assert (Hnone : bool_decide (is_Some (@None (str * str))) = false)
    by (apply bool_decide_false, is_Some_None).
  unfold row_write, process_row. destruct (blank_id r).
  { rewrite Hnone. lia. }
  destruct (build r) as [e|[?|? ?|row_id doc]]; cbv beta iota;
    try (rewrite Hnone; cbn [processed_count skip print]; lia).
  - rewrite Hnone. destruct e; cbn [processed_count skip print handle]; lia.
  - destruct (write_error W (row_id ++ u ".json")) as [[msg|msg written]|].
    + rewrite Hnone. cbn [processed_count skip print handle]. lia.
    + rewrite Hnone. cbn [processed_count skip print handle leave]. lia.
    + destruct (counts_write_json W row_id doc st) as [-> _].
      rewrite bool_decide_true by eauto. lia.
Qed.

Lemma loop_processed W rows : ∀ st,
  processed_count (foldl (process_row W) st rows)
  = (processed_count st
     + length (List.filter
                 (fun r => bool_decide (is_Some (row_write W r))) rows))%nat.
Proof.
  induction rows as [|r rows IH]; intros st; cbn [foldl List.filter].
  - cbn [length]. lia.
  - rewrite IH, process_row_processed.
    destruct (bool_decide (is_Some (row_write W r))); cbn [length]; lia.
Qed.

Lemma counts_summary output_dir st :
  processed_count (summary output_dir st) = processed_count st
  ∧ skipped_count (summary output_dir st) = skipped_count st.
Proof.
  unfold summary. cbn [skipped_count print].
  by destruct (0 <? skipped_count st)%nat.
Qed.

(** X5. The counts of a run that reads the table to its end: the
    processed count is the number of rows whose file was written (a file
    written twice counts twice), and the processed and skipped counts
    together are the number of rows that passed the identifier check. *)
Theorem reported_counts (E : env) (csv_file output_dir : str)
    (records : list (list str)) (st : state) :
  mkdir_error E = None →
  let final := (csv_to_json E csv_file output_dir (Table records None) st).2 in
  let rows := DictReader records in
  processed_count final
  = length (List.filter
              (fun r => bool_decide
                          (is_Some (row_write (at_dir E (Path E output_dir)) r)))
              rows)
  ∧ (processed_count final + skipped_count final = length (identified rows))%nat.
Proof.
  intros Hmk final rows. unfold final, csv_to_json. rewrite Hmk. cbn [snd].
  fold rows.
  match goal with
  | |- context [summary ?o ?s] =>
      destruct (counts_summary o s) as [-> ->]
  end.
  rewrite loop_counts, loop_processed. cbn [processed_count skipped_count
    start_counting]. split; lia.
Qed.

Lemma reported_counts_witness :
  let final := (csv_to_json plain_env (u "gem.csv") (u "json") twice_table fresh).2 in
  processed_count final = 2%nat ∧ skipped_count final = 0%nat
  ∧ size (files final) = 1%nat.
Proof.
  intros final.
  destruct (reported_counts plain_env (u "gem.csv") (u "json")
              [ REQUIRED_COLUMNS;
                sample_fields (u "1") (u "Ruby") (u "#FF0000") (u "Brilliant") (u "3");
                sample_fields (u " 1 ") (u "Emerald") (u "#00FF00") (u "Princess") (u "5") ]
              fresh eq_refl) as [Hp Hs].
  fold twice_table in Hp, Hs. fold final in Hp, Hs.
  split; [|split].
  - rewrite Hp. vm_compute. reflexivity.
  - vm_compute. reflexivity.
  - vm_compute. reflexivity.
Defined.

(** ** Rows and tables at the edges *)

Lemma get_insert_other (row : gmap str pyval) k v c d :
  c ≠ k → get (<[k := v]> row) c d = get row c d.
Proof. intros Hne. unfold get. by rewrite lookup_insert_ne. Qed.

(** X6. Columns other than the ten required ones are ignored: adding or
    changing any other column of a row changes nothing of what the
    iteration does with it. *)
Theorem extra_column_ignored (W : directory) (st : state)
    (row : gmap str pyval)
    (k : str) (v : pyval) :
  k ∉ REQUIRED_COLUMNS →
  process_row W st (<[k := v]> row) = process_row W st row.
Proof.
  intros Hk. unfold REQUIRED_COLUMNS in Hk.
  repeat (apply not_elem_of_cons in Hk as [? Hk]).
  assert (blank_id (<[k := v]> row) = blank_id row) as Hb.
  { unfold blank_id. by rewrite lookup_insert_ne. }
  assert (extract (<[k := v]> row) = extract row) as He.
  { unfold extract. by rewrite !get_insert_other. }
  assert (shown_id (<[k := v]> row) = shown_id row) as Hs.
  { unfold shown_id. by rewrite get_insert_other. }
  unfold process_row, handle. by rewrite Hb, !build_extract, He, Hs.
Qed.

Lemma extra_column_ignored_witness :
  let row := sample_row (u "Ruby") (u "#FF0000") (u "Brilliant") (u "3") in
  process_row plain_dir fresh (<[u "Notes" := PStr (u "a gift")]> row)
  = process_row plain_dir fresh row.
Proof.
  intros row. apply extra_column_ignored.
  intros Hin. apply list_elem_of_In in Hin.
  repeat (destruct Hin as [Hin|Hin]; [discriminate Hin|]). exact Hin.
Defined.

(** The dictionary of a row: [None] under every header name beyond the
    end of a short row, nothing under a name the header lacks. *)
Lemma foldl_none_lookup (ks : list str) : ∀ (d : gmap str pyval) k,
  foldl (fun d k => <[k := PNone]> d) d ks !! k
  = if bool_decide (k ∈ ks) then Some PNone else d !! k.
Proof.
  induction ks as [|k0 ks IH]; intros d k; cbn [foldl].
  - by rewrite bool_decide_false by apply not_elem_of_nil.
  - rewrite IH. destruct (decide (k ∈ ks)) as [Hin|Hnin].
    + rewrite !bool_decide_true; [done| |done]. by right.
    + rewrite (bool_decide_false _ Hnin).
      destruct (decide (k = k0)) as [->|Hne].
      * rewrite lookup_insert_eq, bool_decide_true; [done|by left].
      * rewrite lookup_insert_ne by done.
        rewrite bool_decide_false; [done|].
        intros [?|?]%elem_of_cons; done.
Qed.

Lemma foldl_zip_lookup_None (kvs : list (str * str)) : ∀ (d : gmap str pyval) k,
  k ∉ kvs.*1 → foldl (fun d '(k, v) => <[k := PStr v]> d) d kvs !! k = d !! k.
Proof.
  induction kvs as [|[k0 v0] kvs IH]; intros d k Hk; cbn [foldl]; [done|].
  cbn [fmap list_fmap fst] in Hk. apply not_elem_of_cons in Hk as [Hne Hk].
  rewrite IH by done. by rewrite lookup_insert_ne.
Qed.

Lemma dict_of_row_short fieldnames fields k :
  k ∈ drop (length fields) fieldnames →
  dict_of_row fieldnames fields !! k = Some PNone.
Proof.
  intros Hin. unfold dict_of_row. rewrite foldl_none_lookup.
  by rewrite bool_decide_true.
Qed.

Lemma dict_of_row_absent fieldnames fields k :
  k ∉ fieldnames → dict_of_row fieldnames fields !! k = None.
Proof.
  intros Hk. unfold dict_of_row. rewrite foldl_none_lookup.
  rewrite bool_decide_false.
  - rewrite foldl_zip_lookup_None; [done|].
    intros Hin. apply Hk.
    apply list_elem_of_fmap in Hin as ([k' v'] & -> & Hin).
    by apply elem_of_zip_l in Hin.
  - intros Hin. apply Hk. by apply (subseteq_drop (length fields)).
Qed.

Lemma extract_None (row : gmap str pyval) k :
  k ∈ REQUIRED_COLUMNS → row !! k = Some PNone →
  extract row = inl (AttributeError (u "'NoneType' object has no attribute 'strip'")).
Proof.
  intros Hk Hrow. destruct (extract row) as [e|f] eqn:He.
  - by rewrite (extract_inl _ _ He).
  - exfalso. apply extract_inr in He
      as (C1 & C2 & C3 & C4 & C5 & C6 & C7 & C8 & C9 & C10).
    assert (column row k = None) as Hnone.
    { unfold column. by rewrite (get_present _ _ _ _ Hrow). }
    unfold REQUIRED_COLUMNS in Hk.
    repeat (apply elem_of_cons in Hk as [->|Hk]; [congruence|]).
    by apply elem_of_nil in Hk.
Qed.

(** X7. A data row shorter than the header holds [None] under the header
    names beyond its end; when one of these is a required column and the
    identifier is there, the row is not turned into a document: the
    [strip] on [None] raises, the generic handler prints the identifier as
    the table has it and the text of the exception, and the row is counted
    as skipped. *)
Theorem short_row_skipped (W : directory) (st : state)
    (fieldnames fields : list str)
    (k : str) :
  let row := dict_of_row fieldnames fields in
  blank_id row = false →
  k ∈ REQUIRED_COLUMNS → k ∈ drop (length fields) fieldnames →
  row !! k = Some PNone
  ∧ process_row W st row
    = skip (print (u "⚠ Error processing row " ++ shown_id row ++ u ": "
                     ++ u "'NoneType' object has no attribute 'strip'") st).
Proof.
  intros row Hb Hk Hdrop.
  pose proof (dict_of_row_short _ _ _ Hdrop) as Hnone.
  split; [exact Hnone|].
  apply (process_row_raise W st row _ Hb (extract_None row k Hk Hnone)).
Qed.

Lemma short_row_skipped_witness :
  let row := dict_of_row REQUIRED_COLUMNS
               [u " 7 "; u "Crimson Star"; u "Ruby"; u "#FF0000"] in
  stdout (process_row plain_dir fresh row)
  = [u "⚠ Error processing row  7 : 'NoneType' object has no attribute 'strip'"]
  ∧ skipped_count (process_row plain_dir fresh row) = 1%nat.
Proof.
  intros row.
  destruct (short_row_skipped plain_dir fresh REQUIRED_COLUMNS
              [u " 7 "; u "Crimson Star"; u "Ruby"; u "#FF0000"] (u "Cut"))
    as [_ Hrow].
  - reflexivity.
  - apply list_elem_of_In. do 4 right. left. reflexivity.
  - apply list_elem_of_In. left. reflexivity.
  - fold row in Hrow. rewrite Hrow. split; vm_compute; reflexivity.
Defined.

(** X8. The handler for a missing column is never reached: whatever the
    row, the environment and the state, an iteration prints no line that
    begins with the text of that handler. *)
Theorem missing_column_never_reported (W : directory) (st : state)
    (row : gmap str pyval) (line : str) :
  line ∈ stdout (process_row W st row) →
  line ∈ stdout st
  ∨ startswith line (u "⚠ Skipping row: Missing column") = false.
Proof.
  unfold process_row. destruct (blank_id row) eqn:Hb; [by left|].
  rewrite build_extract. destruct (extract row) as [e|f] eqn:He.
  - rewrite (extract_inl _ _ He). cbn [handle skip print stdout].
    intros [?|Hin]%elem_of_app; [by left|right].
    apply list_elem_of_singleton in Hin as ->. reflexivity.
  - unfold assemble. destruct (validated f); cbn [negb].
    + destruct (PyInt.int (carat f)) as [n|].
      * destruct (write_error W (gem_id f ++ u ".json"))
          as [[msg|msg written]|].
        -- cbn [handle skip print stdout].
           intros [?|Hin]%elem_of_app; [by left|right].
           apply list_elem_of_singleton in Hin as ->. reflexivity.
        -- cbn [handle skip print stdout leave].
           intros [?|Hin]%elem_of_app; [by left|right].
           apply list_elem_of_singleton in Hin as ->. reflexivity.
        -- unfold write_json. cbn [processed_count].
           destruct (_ =? _)%nat; cbn [print stdout]; [|by left].
           intros [?|Hin]%elem_of_app; [by left|right].
           apply list_elem_of_singleton in Hin as ->. reflexivity.
      * cbn [skip print stdout].
        intros [?|Hin]%elem_of_app; [by left|right].
        apply list_elem_of_singleton in Hin as ->. reflexivity.
    + cbn [skip print stdout].
      intros [?|Hin]%elem_of_app; [by left|right].
      apply list_elem_of_singleton in Hin as ->. reflexivity.
Qed.

Lemma missing_column_never_reported_witness :
  let row := dict_of_row (header_without (u "Cut"))
               [u "1"; u "Crimson Star"; u "Ruby"; u "#FF0000"; u "3"; u "VS1";
                u "Rare"; u "ipfs://image/1"; u "ipfs://animation/1"] in
  missing row (u "Cut")
  ∧ startswith (u "⚠ Skipping row 1: Missing required fields")
      (u "⚠ Skipping row: Missing column") = false.
Proof.
  intros row. split; [by left|].
  destruct (missing_column_never_reported plain_dir fresh row
              (u "⚠ Skipping row 1: Missing required fields")) as [Hin|H].
  - apply list_elem_of_In. left. vm_compute. reflexivity.
  - by apply elem_of_nil in Hin.
  - exact H.
Defined.

Lemma loop_all_blank W rows : ∀ st,
  Forall (fun r => blank_id r = true) rows →
  foldl (process_row W) st rows = st.
Proof.
  induction rows as [|r rows IH]; intros st Hall; [done|].
  apply Forall_cons in Hall as [Hr Hall]. cbn [foldl].
  rewrite (process_row_blank _ _ _ Hr). by apply IH.
Qed.

Lemma run_all_blank E csv_file output_dir records st :
  mkdir_error E = None →
  Forall (fun r => blank_id r = true) (DictReader records) →
  let result := csv_to_json E csv_file output_dir (Table records None) st in
  result.1 = Returned true
  ∧ files result.2 = files st
  ∧ processed_count result.2 = 0%nat
  ∧ skipped_count result.2 = 0%nat
  ∧ ∃ before, stdout result.2
              = before ++ summary_lines (Path E output_dir) 0 0.
Proof.
  intros Hmk Hall result. unfold result, csv_to_json. rewrite Hmk.
  cbn [fst snd]. rewrite (loop_all_blank _ _ _ Hall).
  split; [done|]. split; [reflexivity|]. split; [reflexivity|].
  split; [reflexivity|]. eexists. apply stdout_summary.
Qed.

(** X9. An empty byte store, a header alone, and a header followed only
    by blank lines all convert with success: no file is written, both
    counts are zero, and the run ends with the summary for zero files and
    no line about skipped rows. *)
Theorem blank_lines_are_not_rows (E : env) (csv_file output_dir : str)
    (records : list (list str)) (st : state) :
  mkdir_error E = None →
  Forall (fun r => r = []) (tail records) →
  let result := csv_to_json E csv_file output_dir (Table records None) st in
  result.1 = Returned true
  ∧ files result.2 = files st
  ∧ processed_count result.2 = 0%nat
  ∧ skipped_count result.2 = 0%nat
  ∧ ∃ before, stdout result.2
              = before ++ summary_lines (Path E output_dir) 0 0.
Proof.
  intros Hmk Hblank. apply run_all_blank; [done|].
  destruct records as [|header rest]; [constructor|].
  cbn [tail] in Hblank. unfold DictReader.
  assert (List.filter (fun r : list str => match r with [] => false | _ => true end)
            rest = []) as ->; [|constructor].
  induction rest as [|r rest IH]; [done|].
  apply Forall_cons in Hblank as [-> Hrest]. cbn [List.filter]. by apply IH.
Qed.

Lemma blank_lines_are_not_rows_witness :
  let result := csv_to_json plain_env (u "gem.csv") (u "json")
                  (Table [REQUIRED_COLUMNS; []; []] None) fresh in
  result.1 = Returned true ∧ files result.2 = ∅
  ∧ processed_count result.2 = 0%nat ∧ skipped_count result.2 = 0%nat.
Proof.
  intros result.
  destruct (blank_lines_are_not_rows plain_env (u "gem.csv") (u "json")
              [REQUIRED_COLUMNS; []; []] fresh eq_refl)
    as (H1 & H2 & H3 & H4 & _).
  - repeat constructor.
  - repeat split; assumption.
Defined.

(** X10. A table whose header has no ID column converts with success and
    in silence: every row is passed over at the identifier check, nothing
    is written and nothing is counted as skipped. *)
Theorem table_without_id_column (E : env) (csv_file output_dir : str)
    (header : list str) (rest : list (list str)) (st : state) :
  mkdir_error E = None →
  u "ID" ∉ header →
  let result :=
    csv_to_json E csv_file output_dir (Table (header :: rest) None) st in
  result.1 = Returned true
  ∧ files result.2 = files st
  ∧ processed_count result.2 = 0%nat
  ∧ skipped_count result.2 = 0%nat
  ∧ ∃ before, stdout result.2
              = before ++ summary_lines (Path E output_dir) 0 0.
Proof.
  intros Hmk Hid. apply run_all_blank; [done|].
  unfold DictReader. apply Forall_forall. intros row Hin.
  apply list_elem_of_In, in_map_iff in Hin as (fields & <- & _).
  unfold blank_id. by rewrite (dict_of_row_absent _ _ _ Hid).
Qed.

Lemma table_without_id_column_witness :
  let result := csv_to_json plain_env (u "gem.csv") (u "json")
                  (Table [ header_without (u "ID");
                           [ u "Crimson Star"; u "Ruby"; u "#FF0000";
                             u "Brilliant"; u "3"; u "VS1"; u "Rare";
                             u "ipfs://image/1"; u "ipfs://animation/1" ] ]
                         None) fresh in
  result.1 = Returned true ∧ files result.2 = ∅
  ∧ processed_count result.2 = 0%nat ∧ skipped_count result.2 = 0%nat.
Proof.
  intros result.
  destruct (table_without_id_column plain_env (u "gem.csv") (u "json")
              (header_without (u "ID"))
              [ [ u "Crimson Star"; u "Ruby"; u "#FF0000"; u "Brilliant";
                  u "3"; u "VS1"; u "Rare"; u "ipfs://image/1";
                  u "ipfs://animation/1" ] ] fresh eq_refl)
    as (H1 & H2 & H3 & H4 & _).
  - intros Hin. apply list_elem_of_In in Hin.
    repeat (destruct Hin as [Hin|Hin]; [discriminate Hin|]). exact Hin.
  - repeat split; assumption.
Defined.

(** X11. When reading the byte store raises part of the way,
    [csv_to_json] returns failure and prints the error last, without a
    summary, but the files of the rows read before the failure are written
    and stay: the output directory is the one a complete read of those
    records would have left. *)
Theorem read_failure_keeps_files (E : env) (csv_file output_dir : str)
    (records : list (list str)) (msg : str) (st : state) :
  mkdir_error E = None →
  let result :=
    csv_to_json E csv_file output_dir (Table records (Some msg)) st in
  result.1 = Returned false
  ∧ files result.2
    = files (csv_to_json E csv_file output_dir (Table records None) st).2
  ∧ last (stdout result.2) = Some (u "✗ Error reading CSV file: " ++ msg).
Proof.
  intros Hmk result. unfold result. split; [|split].
  - by rewrite csv_to_json_returns, Hmk.
  - by rewrite !files_csv_to_json.
  - unfold csv_to_json. rewrite Hmk. cbn [snd print stdout].
    apply last_snoc.
Qed.

Lemma read_failure_keeps_files_witness :
  let result := csv_to_json plain_env (u "gem.csv") (u "json")
                  (Table [ REQUIRED_COLUMNS;
                           sample_fields (u "1") (u "Ruby") (u "#FF0000")
                             (u "Brilliant") (u "3") ]
                         (Some (u "'utf-8' codec can't decode byte 0xff")))
                  fresh in
  result.1 = Returned false
  ∧ files result.2 = {[ u "1.json" := dumps sample_document 4 ]}.
Proof.
  intros result.
  destruct (read_failure_keeps_files plain_env (u "gem.csv") (u "json")
              [ REQUIRED_COLUMNS;
                sample_fields (u "1") (u "Ruby") (u "#FF0000") (u "Brilliant")
                  (u "3") ]
              (u "'utf-8' codec can't decode byte 0xff") fresh eq_refl)
    as (H1 & H2 & _).
  split; [exact H1|]. fold result in H2. rewrite H2.
  vm_compute. reflexivity.
Defined.

(** ** Carat texts, file texts and files that cannot be written *)

Lemma ascii_digit_facts c :
  ascii_digit c = true →
  (c <? 127) = true ∧ PyInt.Py_ISSPACE c = false ∧ (c =? 0x5F) = false
  ∧ (c =? 0x2B) = false ∧ (c =? 0x2D) = false
  ∧ PyInt.digit_value c = Some (c - 0x30).
Proof.
  unfold ascii_digit, PyInt.Py_ISSPACE, PyInt.digit_value.
  intros H. rewrite H. apply andb_true_iff in H as [H1 H2].
  apply N.leb_le in H1, H2.
  repeat split; try (apply N.ltb_lt; lia); try (apply N.eqb_neq; lia).
  apply orb_false_iff. split; [|apply N.eqb_neq; lia].
  apply andb_false_iff. right. apply N.leb_gt. lia.
Qed.

Lemma scan_digits ds : ∀ acc n,
  forallb ascii_digit ds = true →
  PyInt.scan ds false acc n
  = Some (fold_left (fun a c => a * 10 + (c - 0x30)) ds acc,
          n + N.of_nat (length ds), []).
Proof.
  induction ds as [|c ds IH]; intros acc n Hds; cbn [PyInt.scan].
  - cbn [fold_left length]. by rewrite N.add_0_r.
  - cbn [forallb] in Hds. apply andb_true_iff in Hds as [Hc Hds].
    destruct (ascii_digit_facts c Hc) as (_ & _ & -> & _ & _ & ->).
    rewrite IH by done. cbn [fold_left length]. rewrite Nat2N.inj_succ.
    do 3 f_equal. lia.
Qed.

Lemma int_of_digits ds :
  ds ≠ [] → forallb ascii_digit ds = true → N.of_nat (length ds) <= PyInt.max_str_digits →
  PyInt.int ds = Some (Z.of_N (decimal_value ds)).
Proof.
  intros Hne Hds Hlen. unfold PyInt.int.
  assert (map PyInt.to_ascii_char ds = ds) as ->.
  { clear Hne Hlen. induction ds as [|c ds IH]; [done|].
    cbn [forallb] in Hds. apply andb_true_iff in Hds as [Hc Hds].
    cbn [map]. rewrite IH by done. unfold PyInt.to_ascii_char.
    by destruct (ascii_digit_facts c Hc) as (-> & _). }
  destruct ds as [|c ds]; [done|].
  pose proof Hds as Hall. cbn [forallb] in Hds.
  apply andb_true_iff in Hds as [Hc _].
  destruct (ascii_digit_facts c Hc) as (_ & Hsp & Hus & Hplus & Hminus & _).
  unfold PyInt.PyLong_FromString. cbn [PyInt.skip_space].
  rewrite Hsp, Hplus, Hminus. unfold PyInt.long_from_string_base.
  rewrite Hus, (scan_digits _ 0 0 Hall).
  assert ((0 + N.of_nat (length (c :: ds)) =? 0) = false) as ->.
  { apply N.eqb_neq. cbn [length]. lia. }
  cbn [PyInt.skip_space].
  assert ((PyInt.max_str_digits <? 0 + N.of_nat (length (c :: ds))) = false) as ->.
  { apply N.ltb_ge. rewrite N.add_0_l. exact Hlen. }
  reflexivity.
Qed.

(** X12. A carat made of ASCII digits only, up to 4300 of them, is always
    accepted: a row that reaches the coercion with such a carat is built
    into a document whose Carat trait is the number the digits spell in
    base ten, leading zeros included. *)
Theorem digit_carat_accepted (row : gmap str pyval) (f : fields) :
  extract row = inr f → validated f = true →
  forallb ascii_digit (carat f) = true → N.of_nat (length (carat f)) <= PyInt.max_str_digits →
  build row
  = inr (Built (gem_id f) (document f (Z.of_N (decimal_value (carat f)))))
  ∧ trait_value (u "Carat") (document f (Z.of_N (decimal_value (carat f))))
    = Some (JInt (Z.of_N (decimal_value (carat f)))).
Proof.
  intros He Hv Hds Hlen. split; [|apply trait_values].
  apply build_Built. exists f, (Z.of_N (decimal_value (carat f))).
  repeat split; try done.
  apply int_of_digits; try done.
  by apply validated_true in Hv as (_ & _ & _ & ? & _).
Qed.

Lemma digit_carat_accepted_witness :
  document_of (sample_row (u "Ruby") (u "#FF0000") (u "Brilliant") (u "007"))
    ≫= trait_value (u "Carat")
  = Some (JInt 7).
Proof.
  destruct (digit_carat_accepted
              (sample_row (u "Ruby") (u "#FF0000") (u "Brilliant") (u "007"))
              {| gem_id := u "1"; name := u "Crimson Star";
                 category := u "Ruby"; color_code := u "#FF0000";
                 cut := u "Brilliant"; carat := u "007";
                 clarity := u "VS1"; rarity := u "Rare";
                 image := u "ipfs://image/1";
                 animation_url := u "ipfs://animation/1" |})
    as [Hbuild Hcarat].
  - reflexivity.
  - reflexivity.
  - reflexivity.
  - vm_compute. discriminate.
  - unfold document_of. rewrite Hbuild. exact Hcarat.
Defined.

(** X13. With [ensure_ascii=False] a string is written between double
    quotes exactly as it is, whatever its script, as long as it holds no
    double quote, no backslash and no control character. *)
Theorem string_written_verbatim (s : str) :
  forallb verbatim s = true →
  encode_basestring s = [0x22] ++ s ++ [0x22].
Proof.
  intros Hs. unfold encode_basestring. do 2 f_equal.
  induction s as [|c s IH]; [done|].
  cbn [forallb] in Hs. apply andb_true_iff in Hs as [Hc Hs].
  cbn [map concat]. rewrite IH by done.
  unfold verbatim in Hc.
  apply andb_true_iff in Hc as [Hc H5c].
  apply andb_true_iff in Hc as [H20 H22].
  apply negb_true_iff in H20, H22, H5c.
  apply N.ltb_ge in H20. apply N.eqb_neq in H22, H5c.
  unfold escape. rewrite (proj2 (N.eqb_neq _ _) H5c), (proj2 (N.eqb_neq _ _) H22).
  assert (Hne : ∀ k, k < 0x20 → (c =? k) = false)
    by (intros k Hk; apply N.eqb_neq; lia).
  rewrite !Hne by lia.
  assert ((c <? 0x20) = false) as -> by (apply N.ltb_ge; lia).
  reflexivity.
Qed.

Lemma string_written_verbatim_witness :
  encode_basestring (u "紅寶石 Ruby") = [0x22] ++ u "紅寶石 Ruby" ++ [0x22].
Proof. apply string_written_verbatim. reflexivity. Defined.




Lemma column_insert_other (row : gmap str pyval) k v c :
  c ≠ k → column (<[k := v]> row) c = column row c.
Proof. intros Hne. unfold column. by rewrite get_insert_other. Qed.

Lemma column_insert_same (row : gmap str pyval) k s :
  column (<[k := PStr s]> row) k = Some (strip s).
Proof. unfold column, get. by rewrite lookup_insert_eq. Qed.

(** X15. When the Category of a row is not blank its Color column is not
    used at all: whatever text is put there, the same document is built. *)
Theorem color_code_unused (row : gmap str pyval) (row_id : str) (doc : json)
    (cat s : str) :
  build row = inr (Built row_id doc) →
  column row (u "Category") = Some cat → cat ≠ [] →
  build (<[u "Color" := PStr s]> row) = inr (Built row_id doc).
Proof.
  intros Hbuild Hcat Hne.
  apply build_Built in Hbuild as (f & n & He & Hv & Hn & -> & ->).
  apply extract_inr in He
    as (C1 & C2 & C3 & C4 & C5 & C6 & C7 & C8 & C9 & C10).
  assert (truthy (category f) = true) as Ht.
  { apply truthy_true. congruence. }
  set (f' := {| gem_id := gem_id f; name := name f; category := category f;
                color_code := strip s; cut := cut f; carat := carat f;
                clarity := clarity f; rarity := rarity f; image := image f;
                animation_url := animation_url f |}).
  assert (color_name f' = color_name f) as Hcn.
  { unfold color_name. cbn [category f']. by rewrite Ht. }
  apply build_Built. exists f', n. split; [|split; [|split; [|split]]].
  - apply extract_inr. cbn [gem_id name category color_code cut carat clarity
      rarity image animation_url f'].
    rewrite column_insert_same.
    rewrite !column_insert_other
      by (intros H; vm_compute in H; discriminate H).
    by repeat split.
  - revert Hv. unfold validated. by rewrite Hcn.
  - exact Hn.
  - reflexivity.
  - unfold document. by rewrite Hcn.
Qed.

Lemma color_code_unused_witness :
  build (<[u "Color" := PStr []]>
           (sample_row (u "Ruby") (u "#FF0000") (u "Brilliant") (u "3")))
  = inr (Built (u "1") sample_document).
Proof.
  apply (color_code_unused _ (u "1") sample_document (u "Ruby") []).
  - reflexivity.
  - reflexivity.
  - discriminate.
Defined.

Lemma files_convert E csv_file output_dir store st :
  files (convert E csv_file output_dir store st).2
  = files (csv_to_json E csv_file output_dir store st).2.
Proof.
  unfold convert.
  by destruct (csv_to_json E csv_file output_dir store st) as [[[|]|msg] st'].
Qed.

Lemma files_csv_to_json_state E csv_file output_dir store st st' :
  files st = files st' →
  files (csv_to_json E csv_file output_dir store st).2
  = files (csv_to_json E csv_file output_dir store st').2.
Proof. intros H. by rewrite !files_csv_to_json, H. Qed.

(** X16. The orchestrator itself writes no output file: after [main] the
    output files are what [csv_to_json] makes of the byte store the run
    converts, and they are untouched when the download fails or when the
    command line parser ends the program. *)
Theorem orchestrator_files (urlopen : str -> fetched) (E : env) (p : parsed)
    (store : byte_store) (st : state) :
  files (main urlopen E p store st).2
  = match p with
    | ParserExit _ _ => files st
    | Namespace a =>
        match used_store urlopen a store with
        | Some converted =>
            files (csv_to_json E (csv a) (output a) converted st).2
        | None => files st
        end
    end.
Proof.
  destruct p as [status printed|a].
  { cbn [main snd]. apply files_printed. }
  assert (files (main urlopen E (Namespace a) store st).2
          = files (sync_google_sheet urlopen E (spreadsheet_id a) (gid a)
                     (csv a) (output a) (skip_download a) store st).2) as ->.
  { unfold main.
    by destruct (sync_google_sheet _ _ _ _ _ _ _ _ _) as [[[|]|msg] st']. }
  unfold sync_google_sheet, used_store.
  destruct (skip_download a); cbn [negb].
  - destruct store as [|msg|msg|records failure].
    + cbn [snd]. by rewrite !files_print, files_csv_to_json; destruct (mkdir_error E).
    + cbn [snd]. by rewrite files_csv_to_json; destruct (mkdir_error E).
    + rewrite files_convert. by apply files_csv_to_json_state.
    + rewrite files_convert. by apply files_csv_to_json_state.
  - unfold download_csv.
    destruct (urlopen (export_url (spreadsheet_id a) (gid a)))
      as [code reason|reason|msg|size msg|fetched_store size lines];
      cbn [snd fst].
    + by destruct (code =? 403).
    + reflexivity.
    + reflexivity.
    + reflexivity.
    + rewrite files_convert. by apply files_csv_to_json_state.
Qed.
